(** * The unresolver of readthedocs.core.unresolver

    A shallow embedding of [readthedocs/core/unresolver.py]: the domain
    classifier ([unresolve_domain], [unresolve_domain_from_request]), the
    path resolver ([_unresolve_path_with_parent_project] and its three
    matchers) and the facade ([_unresolve], [unresolve_path]).

    Python strings are modelled as [string] (sequences of 8-bit
    characters), exceptions as the constructors of [UnresolverError]
    carried by the [Outcome] monad, Django querysets as lists held by a
    [Database] record, and the two compiled regular expressions as terms
    of [regex] run by a backtracking matcher with named groups. *)

From Stdlib Require Import Bool Arith Lia List Ascii String.
Import ListNotations.
Local Open Scope string_scope.
Local Open Scope list_scope.

Set Implicit Arguments.

(** ** Strings as the code uses them *)

Module Str.

(** [c.lower()] on one ASCII character. *)
Definition lower_ascii (c : ascii) : ascii :=
  let n := nat_of_ascii c in
  if ((65 <=? n) && (n <=? 90))%nat then ascii_of_nat (n + 32) else c.

(** [s.lower()] on ASCII text: the letters [A]-[Z] are lowered and every
    other character is left as it is.  Python lowers the capital letters
    outside ASCII as well, so this is [str.lower] on the strings that
    [is_ascii] accepts and on no others. *)
Fixpoint lower (s : string) : string :=
  match s with
  | EmptyString => EmptyString
  | String c t => String (lower_ascii c) (lower t)
  end.

(** [s.isascii()]: every character is below 128. *)
Fixpoint is_ascii (s : string) : bool :=
  match s with
  | EmptyString => true
  | String c t => (nat_of_ascii c <? 128)%nat && is_ascii t
  end.

(** [s.startswith(p)]. *)
Fixpoint startswith (p s : string) : bool :=
  match p, s with
  | EmptyString, _ => true
  | String _ _, EmptyString => false
  | String a p', String b s' => Ascii.eqb a b && startswith p' s'
  end.

(** [s.endswith(p)] for a one-character [p]. *)
Fixpoint endswith_char (c : ascii) (s : string) : bool :=
  match s with
  | EmptyString => false
  | String a EmptyString => Ascii.eqb a c
  | String _ t => endswith_char c t
  end.

(** [sub in s]: [sub] occurs somewhere in [s]. *)
Fixpoint contains (sub s : string) : bool :=
  startswith sub s ||
  match s with
  | EmptyString => false
  | String _ t => contains sub t
  end.

(** [s[n:]]. *)
Fixpoint drop (n : nat) (s : string) : string :=
  match n, s with
  | O, _ => s
  | S _, EmptyString => EmptyString
  | S n', String _ t => drop n' t
  end.

(** [s.split(c, maxsplit=1)] for a one-character separator: the text
    before the first [c], and the text after it when [c] occurs. *)
Fixpoint split_once (c : ascii) (s : string) : string * option string :=
  match s with
  | EmptyString => (EmptyString, None)
  | String a t =>
      if Ascii.eqb a c then (EmptyString, Some t)
      else let (h, r) := split_once c t in (String a h, r)
  end.

(** [s.rsplit(sep, maxsplit=1)] when it yields two parts: the split is
    at the occurrence of [sep] that starts furthest to the right.
    [None] stands for the one-element list returned when [sep] does not
    occur. *)
Fixpoint rsplit_once (sep s : string) : option (string * string) :=
  match s with
  | EmptyString => None
  | String a t =>
      match rsplit_once sep t with
      | Some (l, r) => Some (String a l, r)
      | None =>
          if startswith sep s
          then Some (EmptyString, drop (String.length sep) s)
          else None
      end
  end.

(** Truth value of a string: the empty string is false. *)
Definition truthy (s : string) : bool :=
  match s with EmptyString => false | String _ _ => true end.

(** Truth value of an optional string: [None] and [""] are false. *)
Definition truthy_opt (s : option string) : bool :=
  match s with Some t => truthy t | None => false end.

(** [a == b] where either side may be [None]. *)
Definition eqb_opt (a b : option string) : bool :=
  match a, b with
  | Some x, Some y => String.eqb x y
  | None, None => true
  | _, _ => false
  end.

End Str.

(** ** Regular expressions

    The fragment of Python's [re] syntax the two patterns are written in,
    with the behaviour of [Pattern.match]: the match starts at the
    beginning of the string, alternatives are tried left to right,
    quantifiers are greedy unless marked lazy, and the first complete
    match found by backtracking is returned with its named groups. *)

Module Re.

Inductive regex : Type :=
| Empty                                (* the empty pattern *)
| Lit (c : ascii)                      (* a literal character *)
| Class (p : ascii -> bool)            (* a character set, [.] included *)
| Cat (r1 r2 : regex)                  (* r1 r2 *)
| Or (r1 r2 : regex)                   (* r1|r2 *)
| Maybe (r : regex)                    (* r?  *)
| Many (r : regex)                     (* r*  *)
| Many1 (r : regex)                    (* r+  *)
| ManyLazy (r : regex)                 (* r*? *)
| Named (name : string) (r : regex)    (* (?P<name>r) *)
| Bos                                  (* ^ *)
| Eos.                                 (* $ *)

(** Named groups that took part in the match, most recent first. *)
Definition Groups := list (string * string).

Record MatchState := mkState {
  pos : nat;          (* characters consumed so far *)
  rest : string;      (* text not yet consumed *)
  groups : Groups
}.

Definition Cont := MatchState -> option Groups.

Definition advance (st : MatchState) (t : string) : MatchState :=
  mkState (S (pos st)) t (groups st).

Definition shorter (a b : MatchState) : bool :=
  (String.length (rest a) <? String.length (rest b))%nat.

(** The text consumed between two states of one run. *)
Definition consumed (from to : MatchState) : string :=
  String.substring 0 (pos to - pos from) (rest from).

(** Repetition of [body]; an iteration that consumes nothing is not
    repeated.  [n] bounds the iterations by the length of the text
    left, which no run of progressing iterations can exceed. *)
Fixpoint iterate (greedy : bool)
         (body : MatchState -> Cont -> option Groups)
         (k : Cont) (n : nat) (st : MatchState) : option Groups :=
  match n with
  | O => k st
  | S n' =>
      let again :=
        body st (fun st' =>
                   if shorter st' st then iterate greedy body k n' st'
                   else None) in
      if greedy then
        match again with Some g => Some g | None => k st end
      else
        match k st with Some g => Some g | None => again end
  end.

Definition newline : ascii := ascii_of_nat 10.

Fixpoint run (r : regex) (st : MatchState) (k : Cont) {struct r}
  : option Groups :=
  match r with
  | Empty => k st
  | Lit c =>
      match rest st with
      | String a t => if Ascii.eqb a c then k (advance st t) else None
      | EmptyString => None
      end
  | Class p =>
      match rest st with
      | String a t => if p a then k (advance st t) else None
      | EmptyString => None
      end
  | Cat r1 r2 => run r1 st (fun st' => run r2 st' k)
  | Or r1 r2 =>
      match run r1 st k with
      | Some g => Some g
      | None => run r2 st k
      end
  | Maybe r1 =>
      match run r1 st k with
      | Some g => Some g
      | None => k st
      end
  | Many r1 => iterate true (run r1) k (String.length (rest st)) st
  | Many1 r1 =>
      run r1 st (fun st' =>
                   iterate true (run r1) k (String.length (rest st')) st')
  | ManyLazy r1 => iterate false (run r1) k (String.length (rest st)) st
  | Named name r1 =>
      run r1 st (fun st' =>
                   k (mkState (pos st') (rest st')
                              ((name, consumed st st') :: groups st')))
  | Bos => if (pos st =? 0)%nat then k st else None
  | Eos =>
      (* [$] matches at the end and just before a final newline. *)
      match rest st with
      | EmptyString => k st
      | String a EmptyString => if Ascii.eqb a newline then k st else None
      | _ => None
      end
  end.

(** [pattern.match(s)]: the groups of the match, or [None]. *)
Definition match_ (pattern : regex) (s : string) : option Groups :=
  run pattern (mkState 0 s []) (fun st => Some (groups st)).

(** [m.group(name)]: [None] when the group took no part in the match. *)
Fixpoint group (m : Groups) (name : string) : option string :=
  match m with
  | [] => None
  | (n, v) :: m' => if String.eqb n name then Some v else group m' name
  end.

(** A literal word. *)
Fixpoint word (s : string) : regex :=
  match s with
  | EmptyString => Empty
  | String c EmptyString => Lit c
  | String c t => Cat (Lit c) (word t)
  end.

(** [w1|w2|...] for literal words; the empty list matches nothing. *)
Fixpoint one_of (ws : list string) : regex :=
  match ws with
  | [] => Class (fun _ => false)
  | [w] => word w
  | w :: ws' => Or (word w) (one_of ws')
  end.

(** Patterns written one after another. *)
Fixpoint seq (rs : list regex) : regex :=
  match rs with
  | [] => Empty
  | [r] => r
  | r :: rs' => Cat r (seq rs')
  end.

(** [b] is [a] with further groups recorded in front. *)
Definition extends (a b : Groups) : Prop := exists l, b = l ++ a.

(** A matcher hands a match over to its continuation with the groups it
    started from still recorded. *)
Definition reaches (body : MatchState -> Cont -> option Groups) : Prop :=
  forall st k g,
    body st k = Some g ->
    exists st', k st' = Some g /\ extends (groups st) (groups st').

End Re.

(** ** The models and the ORM

    The Django models the module reads, with the attributes it uses.  A
    queryset is a list in the order the database returns it, so
    [qs.filter(...).first()] is [find]; related managers are functions of
    the [Database]. *)

Module Project.
Record t := mk {
  pk : nat;
  slug : string;
  language : string;
  single_version : bool;
  default_version : string
}.
End Project.

Module Version.
Record t := mk {
  pk : nat;
  slug : string
}.
End Version.

Module Domain.
Record t := mk {
  pk : nat;
  domain : string;
  project : Project.t
}.
End Domain.

Module ProjectRelationship.
Record t := mk {
  alias : string;
  child : Project.t
}.
End ProjectRelationship.

(** The two version managers, [readthedocs.builds.constants]. *)
Inductive Manager := INTERNAL | EXTERNAL.

(** Feature flags; the module names one of them. *)
Inductive FeatureId :=
| RESOLVE_PROJECT_FROM_HEADER
| OTHER_FEATURE (feature_id : string).

Definition FeatureId_eqb (a b : FeatureId) : bool :=
  match a, b with
  | RESOLVE_PROJECT_FROM_HEADER, RESOLVE_PROJECT_FROM_HEADER => true
  | OTHER_FEATURE x, OTHER_FEATURE y => String.eqb x y
  | _, _ => false
  end.

Record Database := {
  Project_objects : list Project.t;                (* Project.objects *)
  Domain_objects : list Domain.t;                  (* Domain.objects *)
  translations : Project.t -> list Project.t;      (* project.translations *)
  subprojects : Project.t -> list ProjectRelationship.t;
  versions : Project.t -> Manager -> list Version.t;
  features : Project.t -> list FeatureId           (* project.feature_set *)
}.

(** [django.conf.settings], the two entries the module reads. *)
Record Settings := {
  PUBLIC_DOMAIN : string;
  RTD_EXTERNAL_VERSION_DOMAIN : string
}.

(** [readthedocs.constants.pattern_opts], the entries the two patterns
    are formatted with. *)
Record PatternOpts := {
  project_slug : Re.regex;
  lang_slug : Re.regex;
  version_slug : Re.regex;
  filename_slug : Re.regex
}.

(** [urllib.parse.ParseResult]. *)
Record ParseResult := {
  scheme : string;
  netloc : string;
  path : string;
  params : string;
  query : string;
  fragment : string
}.

(** The part of a Django request the module reads. *)
Record HttpRequest := {
  get_host : string;
  headers : list (string * string)
}.

(** [request.headers.get(name, default)]; header names compare without
    case. *)
Definition headers_get (request : HttpRequest) (name default : string)
  : string :=
  match find (fun h => String.eqb (Str.lower (fst h)) (Str.lower name))
             (headers request) with
  | Some h => snd h
  | None => default
  end.

(** ** Exceptions and results *)

Inductive UnresolverError :=
| InvalidXRTDSlugHeaderError
| SuspiciousHostnameError (domain : string)
| InvalidSubdomainError (domain : string)
| InvalidExternalDomainError (domain : string)
| InvalidCustomDomainError (domain : string)
| VersionNotFoundError
    (project : Project.t) (version_slug : option string) (filename : string)
| TranslationNotFoundError
    (project : Project.t) (language : string) (filename : string)
| InvalidPathForVersionedProjectError (project : Project.t) (path : string)
| InvalidExternalVersionError
    (project : Project.t) (version_slug : option string)
    (external_version_slug : option string).

(** What a call does: it returns, it raises, or it needs a deeper call
    stack than the [fuel] it was given. *)
Inductive Outcome (A : Type) : Type :=
| Return (a : A)
| Raise (e : UnresolverError)
| OutOfFuel.

Arguments Return {A} a.
Arguments Raise {A} e.
Arguments OutOfFuel {A}.

Definition bind {A B} (c : Outcome A) (f : A -> Outcome B) : Outcome B :=
  match c with
  | Return a => f a
  | Raise e => Raise e
  | OutOfFuel => OutOfFuel
  end.

Notation "x <- c ;; k" := (bind c (fun x => k))
  (at level 61, c at next level, right associativity).

Module DomainSourceType.
(** Where the custom domain was resolved from. *)
Inductive t :=
| custom_domain
| public_domain
| external_domain
| http_header.
End DomainSourceType.

Module UnresolvedDomain.
Record t := mk {
  source_domain : string;
  source : DomainSourceType.t;
  project : Project.t;
  domain : option Domain.t;                 (* default None *)
  external_version_slug : option string     (* default None *)
}.

Definition is_from_custom_domain (u : t) : bool :=
  match source u with DomainSourceType.custom_domain => true | _ => false end.

Definition is_from_public_domain (u : t) : bool :=
  match source u with DomainSourceType.public_domain => true | _ => false end.

Definition is_from_http_header (u : t) : bool :=
  match source u with DomainSourceType.http_header => true | _ => false end.

Definition is_from_external_domain (u : t) : bool :=
  match source u with
  | DomainSourceType.external_domain => true
  | _ => false
  end.
End UnresolvedDomain.

Module UnresolvedURL.
Record t := mk {
  parent_project : Project.t;
  project : Project.t;
  version : Version.t;
  filename : string;
  parsed_url : ParseResult;
  domain : option Domain.t;                 (* default None *)
  external : bool                           (* default False *)
}.
End UnresolvedURL.

(** The triple [(project, version, file)] the matchers return. *)
Definition Response := (Project.t * Version.t * string)%type.

(** ** class Unresolver *)

Section Unresolver.

Variable pattern_opts : PatternOpts.
Variable settings : Settings.
Variable db : Database.

(** [^/(?P<language>{lang_slug})
     (/((?P<version>{version_slug})(/(?P<file>{filename_slug}))?)?)?$] *)
Definition multiversion_pattern : Re.regex :=
  Re.seq
    [ Re.Bos; Re.Lit "/"; Re.Named "language" (lang_slug pattern_opts);
      Re.Maybe
        (Re.seq
           [ Re.Lit "/";
             Re.Maybe
               (Re.seq
                  [ Re.Named "version" (version_slug pattern_opts);
                    Re.Maybe
                      (Re.seq
                         [ Re.Lit "/";
                           Re.Named "file" (filename_slug pattern_opts) ])
                  ]) ]);
      Re.Eos ].

(** [^/projects/(?P<project>{project_slug}+)(/(?P<file>{filename_slug}))?$] *)
Definition subproject_pattern : Re.regex :=
  Re.seq
    [ Re.Bos; Re.word "/projects/";
      Re.Named "project" (Re.Many1 (project_slug pattern_opts));
      Re.Maybe
        (Re.seq [ Re.Lit "/"; Re.Named "file" (filename_slug pattern_opts) ]);
      Re.Eos ].

(** [project.versions(manager=manager).filter(slug=version_slug).first()].
    A slug of [None] is the SQL test [slug IS NULL], which no version
    passes. *)
Definition find_version (project : Project.t) (manager : Manager)
           (version_slug : option string) : option Version.t :=
  match version_slug with
  | Some s =>
      find (fun v => String.eqb (Version.slug v) s)
           (versions db project manager)
  | None => None
  end.

(** [parent_project.translations.filter(language=language).first()]. *)
Definition find_translation (parent_project : Project.t)
           (language : string) : option Project.t :=
  find (fun p => String.eqb (Project.language p) language)
       (translations db parent_project).

(** [parent_project.subprojects.filter(alias=alias)
     .select_related("child").first()]. *)
Definition find_subproject (parent_project : Project.t) (alias : string)
  : option ProjectRelationship.t :=
  find (fun r => String.eqb (ProjectRelationship.alias r) alias)
       (subprojects db parent_project).

Definition _normalize_filename (filename : option string) : string :=
  let filename :=
    match filename with
    | Some f => if Str.truthy f then f else "/"
    | None => "/"
    end in
  if Str.startswith "/" filename then filename
  else ("/" ++ filename)%string.

Definition _match_multiversion_project
           (parent_project : Project.t) (path : string)
           (external_version_slug : option string)
  : Outcome (option Response) :=
  match Re.match_ multiversion_pattern path with
  | None => Return None
  | Some m =>
      match Re.group m "language" with
      | None => Return None   (* the group is part of every match *)
      | Some language =>
          let version_slug := Re.group m "version" in
          let file := _normalize_filename (Re.group m "file") in
          project <-
            (if String.eqb (Project.language parent_project) language
             then Return parent_project
             else
               match find_translation parent_project language with
               | Some project => Return project
               | None =>
                   Raise (TranslationNotFoundError
                            parent_project language file)
               end) ;;
          if Str.truthy_opt external_version_slug
             && negb (Str.eqb_opt external_version_slug version_slug)
          then Raise (InvalidExternalVersionError
                        project version_slug external_version_slug)
          else
            let manager :=
              if Str.truthy_opt external_version_slug
              then EXTERNAL else INTERNAL in
            match find_version project manager version_slug with
            | Some version => Return (Some (project, version, file))
            | None =>
                Raise (VersionNotFoundError project version_slug file)
            end
      end
  end.

(** [_match_subproject]; [unresolve_rest] is the method
    [_unresolve_path_with_parent_project] it calls back. *)
Definition _match_subproject
           (unresolve_rest :
              Project.t -> string -> bool -> option string ->
              Outcome Response)
           (parent_project : Project.t) (path : string)
           (external_version_slug : option string)
  : Outcome (option Response) :=
  match Re.match_ subproject_pattern path with
  | None => Return None
  | Some m =>
      match Re.group m "project" with
      | None => Return None   (* the group is part of every match *)
      | Some subproject_alias =>
          let file := _normalize_filename (Re.group m "file") in
          match find_subproject parent_project subproject_alias with
          | Some project_relationship =>
              let subproject :=
                ProjectRelationship.child project_relationship in
              response <-
                unresolve_rest subproject file false
                               external_version_slug ;;
              Return (Some response)
          | None => Return None
          end
      end
  end.

Definition _match_single_version_project
           (parent_project : Project.t) (path : string)
           (external_version_slug : option string)
  : Outcome (option Response) :=
  let file := _normalize_filename (Some path) in
  let (version_slug, manager) :=
    if Str.truthy_opt external_version_slug
    then (external_version_slug, EXTERNAL)
    else (Some (Project.default_version parent_project), INTERNAL) in
  match find_version parent_project manager version_slug with
  | Some version => Return (Some (parent_project, version, file))
  | None =>
      Raise (VersionNotFoundError parent_project version_slug file)
  end.

(** [_unresolve_path_with_parent_project].  [fuel] is the depth of
    calls of this method the interpreter may nest; a call that would
    go deeper is [OutOfFuel]. *)
Fixpoint _unresolve_path_with_parent_project
         (fuel : nat) (parent_project : Project.t) (path : string)
         (check_subprojects : bool)
         (external_version_slug : option string) {struct fuel}
  : Outcome Response :=
  match fuel with
  | O => OutOfFuel
  | S fuel' =>
      (* Multiversion project. *)
      response <-
        (if negb (Project.single_version parent_project)
         then _match_multiversion_project
                parent_project path external_version_slug
         else Return None) ;;
      match response with
      | Some r => Return r
      | None =>
          (* Subprojects. *)
          response <-
            (if check_subprojects
             then _match_subproject
                    (_unresolve_path_with_parent_project fuel')
                    parent_project path external_version_slug
             else Return None) ;;
          match response with
          | Some r => Return r
          | None =>
              (* Single version project. *)
              response <-
                (if Project.single_version parent_project
                 then _match_single_version_project
                        parent_project path external_version_slug
                 else Return None) ;;
              match response with
              | Some r => Return r
              | None =>
                  Raise (InvalidPathForVersionedProjectError
                           parent_project
                           (_normalize_filename (Some path)))
              end
          end
      end
  end.

(** [_unresolve]: the path resolver, then the index file of a
    directory, then the result record. *)
Definition _unresolve (fuel : nat) (unresolved_domain : UnresolvedDomain.t)
           (parsed_url : ParseResult) (append_indexhtml : bool)
  : Outcome UnresolvedURL.t :=
  r <- _unresolve_path_with_parent_project
         fuel (UnresolvedDomain.project unresolved_domain)
         (path parsed_url) true
         (UnresolvedDomain.external_version_slug unresolved_domain) ;;
  let '(current_project, version, filename) := r in
  let filename :=
    if append_indexhtml && Str.endswith_char "/" filename
    then (filename ++ "index.html")%string else filename in
  Return
    {| UnresolvedURL.parent_project :=
         UnresolvedDomain.project unresolved_domain;
       UnresolvedURL.project := current_project;
       UnresolvedURL.version := version;
       UnresolvedURL.filename := filename;
       UnresolvedURL.parsed_url := parsed_url;
       UnresolvedURL.domain := UnresolvedDomain.domain unresolved_domain;
       UnresolvedURL.external :=
         UnresolvedDomain.is_from_external_domain unresolved_domain |}.


(** [host.lower().split(":")[0]]. *)
Definition get_domain_from_host (host : string) : string :=
  fst (Str.split_once ":" (Str.lower host)).

(** [Project.objects.get(slug=slug)], [InvalidSubdomainError] when no
    project has the slug; slugs are unique in the table. *)
Definition _resolve_project_slug (slug domain : string)
  : Outcome Project.t :=
  match find (fun p => String.eqb (Project.slug p) slug)
             (Project_objects db) with
  | Some p => Return p
  | None => Raise (InvalidSubdomainError domain)
  end.

Definition unresolve_domain (domain : string)
  : Outcome UnresolvedDomain.t :=
  let public_domain := get_domain_from_host (PUBLIC_DOMAIN settings) in
  let external_domain :=
    get_domain_from_host (RTD_EXTERNAL_VERSION_DOMAIN settings) in
  let (subdomain, root) := Str.split_once "." domain in
  let root_domain := match root with Some r => r | None => "" end in
  if Str.contains public_domain domain then
    (* Serve from the PUBLIC_DOMAIN, ensuring it looks like
       foo.PUBLIC_DOMAIN. *)
    if String.eqb public_domain root_domain then
      let project_slug := subdomain in
      project <- _resolve_project_slug project_slug domain ;;
      Return
        {| UnresolvedDomain.source_domain := domain;
           UnresolvedDomain.source := DomainSourceType.public_domain;
           UnresolvedDomain.project := project;
           UnresolvedDomain.domain := None;
           UnresolvedDomain.external_version_slug := None |}
    else
      (* This can catch some possibly valid domains
         (docs.readthedocs.io.com), but these might be phishing. *)
      Raise (SuspiciousHostnameError domain)
  else if Str.contains external_domain domain then
    (* Serve PR builds on external_domain host. *)
    if String.eqb external_domain root_domain then
      match Str.rsplit_once "--" subdomain with
      | Some (project_slug, version_slug) =>
          project <- _resolve_project_slug project_slug domain ;;
          Return
            {| UnresolvedDomain.source_domain := domain;
               UnresolvedDomain.source := DomainSourceType.external_domain;
               UnresolvedDomain.project := project;
               UnresolvedDomain.domain := None;
               UnresolvedDomain.external_version_slug := Some version_slug |}
      | None =>
          (* the unpacking raised ValueError *)
          Raise (InvalidExternalDomainError domain)
      end
    else Raise (SuspiciousHostnameError domain)
  else
    (* Custom domain. *)
    match find (fun d => String.eqb (Domain.domain d) domain)
               (Domain_objects db) with
    | None => Raise (InvalidCustomDomainError domain)
    | Some domain_object =>
        Return
          {| UnresolvedDomain.source_domain := domain;
             UnresolvedDomain.source := DomainSourceType.custom_domain;
             UnresolvedDomain.project := Domain.project domain_object;
             UnresolvedDomain.domain := Some domain_object;
             UnresolvedDomain.external_version_slug := None |}
    end.

Definition unresolve_domain_from_request (request : HttpRequest)
  : Outcome UnresolvedDomain.t :=
  let host := get_domain_from_host (get_host request) in
  (* Explicit Project slug being passed in. *)
  let header_project_slug :=
    Str.lower (headers_get request "X-RTD-Slug" "") in
  if Str.truthy header_project_slug then
    match find (fun p =>
                  String.eqb (Project.slug p) header_project_slug
                  && existsb (FeatureId_eqb RESOLVE_PROJECT_FROM_HEADER)
                             (features db p))
               (Project_objects db) with
    | Some project =>
        Return
          {| UnresolvedDomain.source_domain := host;
             UnresolvedDomain.source := DomainSourceType.http_header;
             UnresolvedDomain.project := project;
             UnresolvedDomain.domain := None;
             UnresolvedDomain.external_version_slug := None |}
    | None => Raise InvalidXRTDSlugHeaderError
    end
  else unresolve_domain host.

(** [unresolve_url]; [urlparse] is the standard library's. *)
Definition unresolve_url (urlparse : string -> ParseResult) (fuel : nat)
           (url : string) (append_indexhtml : bool)
  : Outcome UnresolvedURL.t :=
  let parsed_url := urlparse url in
  let domain := get_domain_from_host (netloc parsed_url) in
  unresolved_domain <- unresolve_domain domain ;;
  _unresolve fuel unresolved_domain parsed_url append_indexhtml.

End Unresolver.

(** ** A pattern table, settings and a database to run the code on *)

Module Sample.

Definition in_range (lo hi : nat) (c : ascii) : bool :=
  let n := nat_of_ascii c in ((lo <=? n) && (n <=? hi))%nat.

Definition is_alnum (c : ascii) : bool :=
  in_range 48 57 c || in_range 65 90 c || in_range 97 122 c.

Definition is_one_of (cs : string) (c : ascii) : bool :=
  existsb (Ascii.eqb c) (list_ascii_of_string cs).

(** Modelled from the spec: [readthedocs.constants.pattern_opts] is
    imported by the module but is not among its sources.  The spec (4.2)
    has the version and the file made of alphanumerics, [-], [_] and [.]
    (and [/] in a file) and the subproject alias a slug; the language
    segment is one of the platform's language codes, a few of which are
    listed. *)
Definition pattern_opts : PatternOpts :=
  {| project_slug := Re.Class (fun c => is_alnum c || is_one_of "-_" c);
     lang_slug :=
       Re.one_of ["en"; "es"; "fr"; "de"; "ja"; "pt"; "pt-br"; "zh-cn"];
     version_slug :=
       Re.Many1 (Re.Class (fun c => is_alnum c || is_one_of "-_." c));
     filename_slug :=
       Re.Many (Re.Class (fun c => is_alnum c || is_one_of "-_./" c)) |}.

Definition settings : Settings :=
  {| PUBLIC_DOMAIN := "readthedocs.io";
     RTD_EXTERNAL_VERSION_DOMAIN := "readthedocs.build" |}.

(** Settings whose external suffix ends with the public one. *)
Definition nested_settings : Settings :=
  {| PUBLIC_DOMAIN := "readthedocs.io";
     RTD_EXTERNAL_VERSION_DOMAIN := "external-builds.readthedocs.io" |}.

Definition pip : Project.t := Project.mk 1 "pip" "en" false "latest".
Definition pip_es : Project.t := Project.mk 2 "pip-es" "es" false "latest".
Definition sub : Project.t := Project.mk 3 "subproject" "en" false "latest".
Definition sub2 : Project.t := Project.mk 4 "nested" "en" false "latest".
Definition manual : Project.t := Project.mk 5 "manual" "en" true "latest".
Definition hub : Project.t := Project.mk 6 "hub" "en" false "latest".
Definition builds : Project.t :=
  Project.mk 7 "my-external-builds" "en" false "latest".

Definition latest (n : nat) : Version.t := Version.mk n "latest".
Definition pr42 (n : nat) : Version.t := Version.mk n "pr-42".

Definition docs_pip_org : Domain.t := Domain.mk 1 "docs.pip.org" pip.

(** [pip] has the translation [pip_es] and the subproject [sub] under the
    alias [sub], which has [sub2] under [sub2]; [hub] mounts the
    single-version [manual] under the alias [sub], and [manual] has
    [sub2] under [sub2] as well. *)
Definition db : Database :=
  {| Project_objects := [pip; pip_es; sub; sub2; manual; hub; builds];
     Domain_objects := [docs_pip_org];
     translations := fun p =>
       match Project.pk p with 1 => [pip_es] | _ => [] end;
     subprojects := fun p =>
       match Project.pk p with
       | 1 => [ProjectRelationship.mk "sub" sub]
       | 3 => [ProjectRelationship.mk "sub2" sub2]
       | 5 => [ProjectRelationship.mk "sub2" sub2]
       | 6 => [ProjectRelationship.mk "sub" manual]
       | _ => []
       end;
     versions := fun p m =>
       match m with
       | INTERNAL => [latest (10 * Project.pk p)]
       | EXTERNAL => [pr42 (10 * Project.pk p + 1)]
       end;
     features := fun p =>
       match Project.pk p with
       | 1 => [OTHER_FEATURE "skip_sync"; RESOLVE_PROJECT_FROM_HEADER]
       | _ => []
       end |}.

End Sample.

(** * Properties *)

(** ** Strings *)

Module StrFacts.

Lemma append_empty s : (s ++ "")%string = s.
Proof. induction s as [|a s IH]; simpl; [|rewrite IH]; reflexivity. Qed.

Lemma startswith_app p s : Str.startswith p (p ++ s) = true.
Proof.
  induction p as [|a p IH]; simpl; [reflexivity|].
  now rewrite Ascii.eqb_refl, IH.
Qed.

Lemma startswith_empty s : Str.startswith "" s = true.
Proof. destruct s; reflexivity. Qed.

Lemma contains_step sub a s :
  Str.contains sub (String a s)
  = Str.startswith sub (String a s) || Str.contains sub s.
Proof. reflexivity. Qed.

Lemma contains_prefix sub s : Str.contains sub (sub ++ s) = true.
Proof.
  destruct (sub ++ s)%string eqn:E; simpl;
    rewrite <- E, startswith_app; reflexivity.
Qed.

Lemma contains_app_r sub x s :
  Str.contains sub s = true -> Str.contains sub (x ++ s) = true.
Proof.
  intros H. induction x as [|a x IH]; [exact H|].
  change (String a x ++ s)%string with (String a (x ++ s)).
  rewrite contains_step, IH. apply orb_true_r.
Qed.

Lemma contains_self sub : Str.contains sub sub = true.
Proof.
  pose proof (contains_prefix sub "") as H.
  now rewrite append_empty in H.
Qed.

Lemma drop_app p s : Str.drop (String.length p) (p ++ s) = s.
Proof.
  induction p as [|a p IH]; simpl; [destruct s; reflexivity | exact IH].
Qed.

Lemma truthy_lower s : Str.truthy (Str.lower s) = Str.truthy s.
Proof. destruct s; reflexivity. Qed.

Lemma truthy_false s : Str.truthy s = false <-> s = "".
Proof. destruct s; simpl; split; congruence. Qed.

(** [split_once] cuts at the first separator. *)
Lemma split_once_some c s h r :
  Str.split_once c s = (h, Some r) -> s = (h ++ String c r)%string.
Proof.
  revert h. induction s as [|a s IH]; simpl; intros h H; [discriminate|].
  destruct (Ascii.eqb a c) eqn:E.
  - apply Ascii.eqb_eq in E. inversion H; subst. reflexivity.
  - destruct (Str.split_once c s) as [h' r'].
    inversion H; subst. simpl. now rewrite (IH h' eq_refl).
Qed.

Lemma split_once_none c s h :
  Str.split_once c s = (h, None) -> s = h.
Proof.
  revert h. induction s as [|a s IH]; simpl; intros h H.
  - now inversion H.
  - destruct (Ascii.eqb a c); [discriminate|].
    destruct (Str.split_once c s) as [h' r'].
    inversion H; subst. now rewrite (IH h' eq_refl).
Qed.

Lemma split_once_app c h r :
  Str.contains (String c "") h = false ->
  Str.split_once c (h ++ String c r) = (h, Some r).
Proof.
  induction h as [|a h IH]; intros H.
  - simpl. now rewrite Ascii.eqb_refl.
  - rewrite contains_step in H. apply orb_false_iff in H as [Ha Hh].
    cbn [Str.startswith] in Ha.
    rewrite andb_true_r in Ha.
    simpl. rewrite Ascii.eqb_sym, Ha, (IH Hh). reflexivity.
Qed.

(** The root domain is a part of the domain it was cut from. *)
Lemma root_in_domain domain subdomain root :
  Str.split_once "." domain = (subdomain, root) ->
  Str.contains (match root with Some r => r | None => "" end) domain = true.
Proof.
  intros H. destruct root as [r|].
  - apply split_once_some in H. subst domain.
    apply contains_app_r.
    change (String "." r) with (String "." "" ++ r)%string.
    apply contains_app_r, contains_self.
  - destruct domain; reflexivity.
Qed.

(** [rsplit_once] finds nothing exactly when the separator does not
    occur, and cuts at the occurrence after which there is no other. *)
Lemma rsplit_once_none sep s :
  Str.contains sep s = false -> Str.rsplit_once sep s = None.
Proof.
  induction s as [|a s IH]; [reflexivity|].
  rewrite contains_step. intros H. apply orb_false_iff in H as [Hs Hc].
  cbn [Str.rsplit_once]. now rewrite (IH Hc), Hs.
Qed.

Lemma rsplit_once_found sep s l r :
  Str.rsplit_once sep s = Some (l, r) -> s = (l ++ sep ++ r)%string.
Proof.
  revert l. induction s as [|a s IH]; intros l H; [discriminate|].
  cbn [Str.rsplit_once] in H.
  destruct (Str.rsplit_once sep s) as [[l' r']|].
  - inversion H; subst. simpl. now rewrite (IH l' eq_refl).
  - destruct (Str.startswith sep (String a s)) eqn:E; [|discriminate].
    inversion H; subst. clear H IH. simpl.
    revert E. generalize (String a s). clear a s.
    induction sep as [|b sep IH]; intros s E; simpl.
    + destruct s; reflexivity.
    + destruct s as [|a s]; [discriminate|]. simpl in E.
      apply andb_true_iff in E as [Eb Es].
      apply Ascii.eqb_eq in Eb. subst. simpl. now rewrite <- IH.
Qed.

Lemma rsplit_once_last sep l r c rest :
  (sep ++ r)%string = String c rest ->
  Str.contains sep rest = false ->
  Str.rsplit_once sep (l ++ sep ++ r) = Some (l, r).
Proof.
  intros E Hlast. induction l as [|a l IH].
  - simpl. rewrite E. cbn [Str.rsplit_once].
    rewrite (rsplit_once_none _ _ Hlast), <- E, startswith_app, drop_app.
    reflexivity.
  - change (String a l ++ sep ++ r)%string with (String a (l ++ sep ++ r)).
    cbn [Str.rsplit_once]. now rewrite IH.
Qed.

Lemma rsplit_once_trailing sep l c sep' :
  sep = String c sep' ->
  Str.rsplit_once sep (l ++ sep) = Some (l, "").
Proof.
  intros E.
  assert (Hs : forall p, String.length p < String.length sep ->
                         Str.startswith sep p = false).
  { clear. induction sep as [|b sep IH]; intros p Hp; simpl in *; [lia|].
    destruct p as [|a p]; [reflexivity|]. simpl in Hp.
    rewrite IH by lia. apply andb_false_r. }
  assert (Hc : forall p, String.length p < String.length sep ->
                         Str.contains sep p = false).
  { induction p as [|a p IH]; intros Hp.
    - simpl. rewrite Hs by exact Hp. reflexivity.
    - rewrite contains_step, Hs by exact Hp. simpl in Hp.
      rewrite IH by lia. reflexivity. }
  pose proof (@rsplit_once_last sep l "" c sep') as H.
  rewrite append_empty in H. apply H; [exact E|].
  apply Hc. rewrite E. simpl. lia.
Qed.

End StrFacts.

(** ** Querysets *)

Lemma find_absent {A} (f : A -> bool) (l : list A) :
  (forall x, In x l -> f x = false) -> find f l = None.
Proof.
  induction l as [|a l IH]; intros H; [reflexivity|]. simpl.
  rewrite (H a (or_introl eq_refl)). apply IH.
  intros x Hx. apply H. now right.
Qed.

Lemma find_present {A} (f : A -> bool) (l : list A) :
  (exists x, In x l /\ f x = true) ->
  exists y, find f l = Some y /\ In y l /\ f y = true.
Proof.
  intros [x [Hin Hf]].
  destruct (find f l) as [y|] eqn:E.
  - exists y. split; [reflexivity|]. now apply find_some in E.
  - now rewrite (find_none f l E x Hin) in Hf.
Qed.

Lemma has_feature feature_id (fs : list FeatureId) :
  existsb (FeatureId_eqb feature_id) fs = true <-> In feature_id fs.
Proof.
  rewrite existsb_exists. split.
  - intros [x [Hin Heq]].
    destruct feature_id, x; simpl in Heq; try discriminate; [exact Hin|].
    apply String.eqb_eq in Heq. now subst.
  - intros Hin. exists feature_id. split; [exact Hin|].
    destruct feature_id; simpl; [reflexivity | apply String.eqb_refl].
Qed.

(** ** The regular-expression matcher *)

Module ReFacts.

Lemma extends_refl a : Re.extends a a.
Proof. exists []; reflexivity. Qed.

Lemma extends_trans a b c : Re.extends a b -> Re.extends b c -> Re.extends a c.
Proof.
  intros [l1 ->] [l2 ->]. exists (l2 ++ l1). now rewrite app_assoc.
Qed.

Lemma extends_cons a b x : Re.extends (x :: a) b -> Re.extends a b.
Proof.
  intros [l ->]. exists (l ++ [x]). now rewrite <- app_assoc.
Qed.

Lemma group_extends name v a b :
  Re.extends ((name, v) :: a) b -> Re.group b name <> None.
Proof.
  intros [l ->]. induction l as [|[n w] l IH]; simpl.
  - rewrite String.eqb_refl. discriminate.
  - destruct (String.eqb n name); [discriminate | exact IH].
Qed.

Lemma iterate_reaches_k greedy body (Hb : Re.reaches body) n :
  forall st k g,
    Re.iterate greedy body k n st = Some g ->
    exists st', k st' = Some g /\ Re.extends (Re.groups st) (Re.groups st').
Proof.
  induction n as [|n IH]; intros st k g H; simpl in H.
  - exists st. split; [exact H | apply extends_refl].
  - assert (Hagain :
      forall g',
        body st (fun st' => if Re.shorter st' st
                            then Re.iterate greedy body k n st'
                            else None) = Some g' ->
        exists st', k st' = Some g' /\
                    Re.extends (Re.groups st) (Re.groups st')).
    { intros g' Hg'. apply Hb in Hg' as (st1 & H1 & E1).
      destruct (Re.shorter st1 st); [|discriminate].
      apply IH in H1 as (st2 & H2 & E2).
      exists st2. split; [exact H2 | eapply extends_trans; eauto]. }
    destruct greedy.
    + destruct (body st _) as [g'|] eqn:Ha.
      * inversion H; subst. now apply Hagain.
      * exists st. split; [exact H | apply extends_refl].
    + destruct (k st) as [g'|] eqn:Hk.
      * inversion H; subst. exists st. split; [exact Hk | apply extends_refl].
      * now apply Hagain.
Qed.

Lemma run_reaches r : Re.reaches (Re.run r).
Proof.
  induction r; intros st k g H; simpl in H.
  - exists st. split; [exact H | apply extends_refl].
  - destruct (Re.rest st) as [|a t]; [discriminate|].
    destruct (Ascii.eqb a c); [|discriminate].
    eexists. split; [exact H | apply extends_refl].
  - destruct (Re.rest st) as [|a t]; [discriminate|].
    destruct (p a); [|discriminate].
    eexists. split; [exact H | apply extends_refl].
  - apply IHr1 in H as (st1 & H1 & E1).
    apply IHr2 in H1 as (st2 & H2 & E2).
    exists st2. split; [exact H2 | eapply extends_trans; eauto].
  - destruct (Re.run r1 st k) eqn:H1.
    + inversion H; subst. now apply IHr1.
    + now apply IHr2.
  - destruct (Re.run r st k) eqn:H1.
    + inversion H; subst. now apply IHr.
    + exists st. split; [exact H | apply extends_refl].
  - eapply iterate_reaches_k; eauto.
  - apply IHr in H as (st1 & H1 & E1).
    eapply iterate_reaches_k in H1 as (st2 & H2 & E2); [|exact IHr].
    exists st2. split; [exact H2 | eapply extends_trans; eauto].
  - eapply iterate_reaches_k; eauto.
  - apply IHr in H as (st1 & H1 & E1).
    eexists. split; [exact H1|].
    simpl. eapply extends_trans; [exact E1|].
    exists [(name, Re.consumed st st1)]. reflexivity.
  - destruct (Re.pos st =? 0)%nat; [|discriminate].
    exists st. split; [exact H | apply extends_refl].
  - destruct (Re.rest st) as [|a [|b t]]; try discriminate.
    + exists st. split; [exact H | apply extends_refl].
    + destruct (Ascii.eqb a Re.newline); [|discriminate].
      exists st. split; [exact H | apply extends_refl].
Qed.

Lemma run_cat_inv r1 r2 st k g :
  Re.run (Re.Cat r1 r2) st k = Some g ->
  exists st1, Re.run r2 st1 k = Some g
              /\ Re.extends (Re.groups st) (Re.groups st1).
Proof. simpl. intros H. now apply run_reaches in H. Qed.

(** A named group on the mandatory spine of a pattern is part of every
    match: [r] is matched, then the group is recorded. *)
Lemma named_then_present name r tail st k g :
  Re.run (Re.Cat (Re.Named name r) tail) st k = Some g ->
  (forall st' g', k st' = Some g' -> g' = Re.groups st') ->
  Re.group g name <> None.
Proof.
  intros H Hk. simpl in H.
  apply run_reaches in H as (st1 & H1 & _).
  apply run_reaches in H1 as (st2 & H2 & E2).
  apply Hk in H2. subst g. simpl in E2.
  eapply group_extends; eauto.
Qed.

End ReFacts.

(** The language group is part of every match of the multiversion
    pattern, and the project group of every match of the subproject
    pattern, whatever the pattern table. *)
Lemma multiversion_language_present opts path m :
  Re.match_ (multiversion_pattern opts) path = Some m ->
  Re.group m "language" <> None.
Proof.
  unfold Re.match_, multiversion_pattern. intros H.
  cbn [Re.seq] in H.
  apply ReFacts.run_cat_inv in H as (st1 & H & _).
  apply ReFacts.run_cat_inv in H as (st2 & H & _).
  eapply ReFacts.named_then_present; [exact H|].
  intros st' g' Hg. now inversion Hg.
Qed.

Lemma subproject_project_present opts path m :
  Re.match_ (subproject_pattern opts) path = Some m ->
  Re.group m "project" <> None.
Proof.
  unfold Re.match_, subproject_pattern. intros H.
  cbn [Re.seq] in H.
  apply ReFacts.run_cat_inv in H as (st1 & H & _).
  apply ReFacts.run_cat_inv in H as (st2 & H & _).
  eapply ReFacts.named_then_present; [exact H|].
  intros st' g' Hg. now inversion Hg.
Qed.

(** ** The path resolver *)

Section PathResolver.

Variable opts : PatternOpts.
Variable db : Database.

Local Notation "'resolve'" := (_unresolve_path_with_parent_project opts db).

(** The body of one call, its callback being the call with less fuel. *)
Lemma resolve_eq fuel parent path check_subprojects ext :
  resolve (S fuel) parent path check_subprojects ext
  = (response <-
       (if negb (Project.single_version parent)
        then _match_multiversion_project opts db parent path ext
        else Return None) ;;
     match response with
     | Some r => Return r
     | None =>
         response <-
           (if check_subprojects
            then _match_subproject opts db (resolve fuel) parent path ext
            else Return None) ;;
         match response with
         | Some r => Return r
         | None =>
             response <-
               (if Project.single_version parent
                then _match_single_version_project db parent path ext
                else Return None) ;;
             match response with
             | Some r => Return r
             | None =>
                 Raise (InvalidPathForVersionedProjectError
                          parent (_normalize_filename (Some path)))
             end
         end
     end).
Proof. reflexivity. Qed.

Lemma match_multiversion_uses_no_fuel parent path ext :
  _match_multiversion_project opts db parent path ext <> OutOfFuel.
Proof.
  unfold _match_multiversion_project.
  destruct (Re.match_ _ path) as [m|]; [|discriminate].
  destruct (Re.group m "language") as [language|]; [|discriminate].
  destruct (String.eqb _ language); simpl.
  - destruct (_ && _); [discriminate|].
    destruct (find_version _ _ _ _); discriminate.
  - destruct (find_translation db parent language); simpl; [|discriminate].
    destruct (_ && _); [discriminate|].
    destruct (find_version _ _ _ _); discriminate.
Qed.

Lemma match_single_version_uses_no_fuel parent path ext :
  _match_single_version_project db parent path ext <> OutOfFuel.
Proof.
  unfold _match_single_version_project.
  destruct (Str.truthy_opt ext);
    destruct (find_version _ _ _ _); discriminate.
Qed.

(** Without the subproject strategy one call answers. *)
Lemma depth_one fuel parent path ext :
  resolve (S fuel) parent path false ext = resolve 1 parent path false ext.
Proof. reflexivity. Qed.

Lemma depth_one_returns parent path ext :
  resolve 1 parent path false ext <> OutOfFuel.
Proof.
  rewrite resolve_eq.
  pose proof (match_multiversion_uses_no_fuel parent path ext) as Hm.
  pose proof (match_single_version_uses_no_fuel parent path ext) as Hs.
  destruct (Project.single_version parent); simpl.
  - destruct (_match_single_version_project db parent path ext)
      as [[r|]| |]; simpl; congruence.
  - destruct (_match_multiversion_project opts db parent path ext)
      as [[r|]| |]; simpl; congruence.
Qed.

(** The subproject matcher calls back with [check_subprojects=False]
    only. *)
Lemma match_subproject_callback f g parent path ext :
  (forall p file e, f p file false e = g p file false e) ->
  _match_subproject opts db f parent path ext
  = _match_subproject opts db g parent path ext.
Proof.
  intros Hfg. unfold _match_subproject.
  destruct (Re.match_ _ path) as [m|]; [|reflexivity].
  destruct (Re.group m "project") as [a|]; [|reflexivity].
  destruct (find_subproject db parent a) as [rel|]; [|reflexivity].
  now rewrite Hfg.
Qed.

Lemma match_subproject_returns parent path ext :
  _match_subproject opts db (resolve 1) parent path ext <> OutOfFuel.
Proof.
  unfold _match_subproject.
  destruct (Re.match_ _ path) as [m|]; [|discriminate].
  destruct (Re.group m "project") as [a|]; [|discriminate].
  destruct (find_subproject db parent a) as [rel|]; [|discriminate].
  pose proof (depth_one_returns (ProjectRelationship.child rel)
                (_normalize_filename (Re.group m "file")) ext) as H.
  destruct (resolve 1 _ _ false ext); simpl; congruence.
Qed.

Lemma depth_two fuel parent path check_subprojects ext :
  resolve (S (S fuel)) parent path check_subprojects ext
  = resolve 2 parent path check_subprojects ext.
Proof.
  rewrite !resolve_eq.
  rewrite (match_subproject_callback
             (resolve (S fuel)) (resolve 1) parent path ext); [reflexivity|].
  intros. apply depth_one.
Qed.

Lemma depth_two_returns parent path check_subprojects ext :
  resolve 2 parent path check_subprojects ext <> OutOfFuel.
Proof.
  destruct check_subprojects; [|rewrite depth_one; apply depth_one_returns].
  rewrite resolve_eq.
  pose proof (match_multiversion_uses_no_fuel parent path ext) as Hm.
  pose proof (match_single_version_uses_no_fuel parent path ext) as Hs.
  pose proof (match_subproject_returns parent path ext) as Hp.
  destruct (Project.single_version parent); simpl.
  - destruct (_match_subproject _ _ _ parent path ext)
      as [[r|]| |]; simpl; try congruence.
    destruct (_match_single_version_project db parent path ext)
      as [[r|]| |]; simpl; congruence.
  - destruct (_match_multiversion_project opts db parent path ext)
      as [[r|]| |]; simpl; try congruence.
    destruct (_match_subproject _ _ _ parent path ext)
      as [[r|]| |]; simpl; congruence.
Qed.

Lemma enough_fuel fuel parent path check_subprojects ext :
  2 <= fuel ->
  resolve fuel parent path check_subprojects ext
  = resolve 2 parent path check_subprojects ext.
Proof.
  intros H. destruct fuel as [|[|fuel]]; try lia. apply depth_two.
Qed.

End PathResolver.

(** * The claims *)

(** C8.  The path resolver terminates on every input with a call depth
    of at most two: with [fuel] for two nested calls it returns or
    raises, and more fuel changes nothing; with
    [check_subprojects=False] one call is enough; the only nested call,
    the callback of [_match_subproject], is made with
    [check_subprojects=False]; and the depth of two is reached, one call
    being too few for a path that enters a subproject. *)
Theorem path_resolver_call_depth :
  (forall opts db parent path check_subprojects ext fuel,
      2 <= fuel ->
      _unresolve_path_with_parent_project
        opts db fuel parent path check_subprojects ext
      = _unresolve_path_with_parent_project
          opts db 2 parent path check_subprojects ext
      /\ _unresolve_path_with_parent_project
           opts db 2 parent path check_subprojects ext <> OutOfFuel)
  /\ (forall opts db parent path ext fuel,
         1 <= fuel ->
         _unresolve_path_with_parent_project opts db fuel parent path false ext
         = _unresolve_path_with_parent_project opts db 1 parent path false ext
         /\ _unresolve_path_with_parent_project
              opts db 1 parent path false ext <> OutOfFuel)
  /\ (forall opts db f g parent path ext,
         (forall p file e, f p file false e = g p file false e) ->
         _match_subproject opts db f parent path ext
         = _match_subproject opts db g parent path ext)
  /\ (exists opts db parent path ext,
         _unresolve_path_with_parent_project opts db 1 parent path true ext
         = OutOfFuel).
Proof.
  repeat split.
  - now apply enough_fuel.
  - apply depth_two_returns.
  - destruct fuel as [|fuel]; [lia|]. apply depth_one.
  - apply depth_one_returns.
  - intros. now apply match_subproject_callback.
  - exists Sample.pattern_opts, Sample.db, Sample.pip,
      "/projects/sub/en/latest/", None.
    reflexivity.
Qed.

Lemma path_resolver_call_depth_witness :
  2 <= 5
  /\ _unresolve_path_with_parent_project
       Sample.pattern_opts Sample.db 5 Sample.pip
       "/projects/sub/en/latest/api.html" true None
     = Return (Sample.sub, Sample.latest 30, "/api.html").
Proof.
  split; [lia|].
  destruct (proj1 path_resolver_call_depth
              Sample.pattern_opts Sample.db Sample.pip
              "/projects/sub/en/latest/api.html" true None 5)
    as [E _]; [lia|].
  rewrite E. reflexivity.
Defined.



(** C5, the claim as stated fails: the path [/fr/pr-43/index.html] has
    the multiversion shape and its version slug differs from the external
    slug [pr-42], but [pip] has no translation in [fr], and the language
    is looked up first: the resolver raises [TranslationNotFoundError],
    not [InvalidExternalVersionError]. *)
Lemma external_version_mismatch_counterexample :
  let result :=
    _unresolve_path_with_parent_project
      Sample.pattern_opts Sample.db 2 Sample.pip "/fr/pr-43/index.html"
      true (Some "pr-42") in
  Project.single_version Sample.pip = false
  /\ Re.match_ (multiversion_pattern Sample.pattern_opts)
               "/fr/pr-43/index.html"
     = Some [("file", "index.html"); ("version", "pr-43");
             ("language", "fr")]
  /\ Some "pr-43" <> Some "pr-42"
  /\ result = Raise (TranslationNotFoundError Sample.pip "fr" "/index.html")
  /\ forall project version_slug external_version_slug,
       result <> Raise (InvalidExternalVersionError
                          project version_slug external_version_slug).
Proof.
  cbv zeta. split; [reflexivity|]. split; [reflexivity|].
  split; [discriminate|]. split; [reflexivity|].
  intros project version_slug external_version_slug H.
  vm_compute in H. discriminate.
Qed.

(** C5, amended.  In a multiversion resolution with a non-empty external
    version slug, once the language segment has resolved to a target
    project (the parent, or its translation in that language), a version
    segment that differs from that slug (or is absent) makes the resolver
    raise [InvalidExternalVersionError] with the target project and both
    slugs; the check comes before the version lookup, so whatever
    versions the database holds the outcome is never
    [VersionNotFoundError]; when the language resolves to no project the
    resolver raises [TranslationNotFoundError] before the check. *)
Theorem external_version_mismatch
        opts db fuel parent path check_subprojects ext m language :
  Project.single_version parent = false ->
  Re.match_ (multiversion_pattern opts) path = Some m ->
  Re.group m "language" = Some language ->
  ext <> "" ->
  Re.group m "version" <> Some ext ->
  let result :=
    _unresolve_path_with_parent_project
      opts db (S fuel) parent path check_subprojects (Some ext) in
  (forall project,
      (Project.language parent = language /\ project = parent)
      \/ (Project.language parent <> language
          /\ find_translation db parent language = Some project) ->
      result = Raise (InvalidExternalVersionError
                        project (Re.group m "version") (Some ext)))
  /\ (forall p v f, result <> Raise (VersionNotFoundError p v f))
  /\ (Project.language parent <> language ->
      find_translation db parent language = None ->
      result = Raise (TranslationNotFoundError
                        parent language
                        (_normalize_filename (Re.group m "file")))).
Proof.
  intros Hsv Hm Hl Hext Hdiff result. subst result.
  rewrite resolve_eq, Hsv. cbn [negb].
  unfold _match_multiversion_project. rewrite Hm, Hl.
  assert (Hgate :
    Str.truthy_opt (Some ext)
    && negb (Str.eqb_opt (Some ext) (Re.group m "version")) = true).
  { unfold Str.truthy_opt, Str.eqb_opt.
    assert (Ht : Str.truthy ext = true)
      by (destruct ext; [congruence | reflexivity]).
    rewrite Ht.
    destruct (Re.group m "version") as [v|]; [|reflexivity].
    destruct (String.eqb ext v) eqn:E; [|reflexivity].
    apply String.eqb_eq in E. congruence. }
  split; [|split].
  - intros project [[Heq ->]|[Hneq Hfound]].
    + apply String.eqb_eq in Heq. rewrite Heq. cbn [bind].
      rewrite Hgate. reflexivity.
    + apply String.eqb_neq in Hneq. rewrite Hneq, Hfound. cbn [bind].
      rewrite Hgate. reflexivity.
  - intros p v f.
    destruct (String.eqb (Project.language parent) language).
    + cbn [bind]. rewrite Hgate. discriminate.
    + destruct (find_translation db parent language);
        [cbn [bind]; rewrite Hgate|]; discriminate.
  - intros Hneq Hnone. apply String.eqb_neq in Hneq.
    rewrite Hneq, Hnone. reflexivity.
Qed.

Lemma external_version_mismatch_witness :
  _unresolve_path_with_parent_project
    Sample.pattern_opts Sample.db 1 Sample.pip "/en/pr-43/index.html"
    true (Some "pr-42")
  = Raise (InvalidExternalVersionError
             Sample.pip (Some "pr-43") (Some "pr-42"))
  /\ _unresolve_path_with_parent_project
       Sample.pattern_opts Sample.db 1 Sample.pip "/es/pr-43/index.html"
       true (Some "pr-42")
     = Raise (InvalidExternalVersionError
                Sample.pip_es (Some "pr-43") (Some "pr-42")).
Proof.
  split.
  - refine (proj1 (@external_version_mismatch
      Sample.pattern_opts Sample.db 0 Sample.pip "/en/pr-43/index.html" true
      "pr-42"
      [("file", "index.html"); ("version", "pr-43"); ("language", "en")]
      "en" eq_refl eq_refl eq_refl _ _) Sample.pip _);
      try discriminate.
    left. split; reflexivity.
  - refine (proj1 (@external_version_mismatch
      Sample.pattern_opts Sample.db 0 Sample.pip "/es/pr-43/index.html" true
      "pr-42"
      [("file", "index.html"); ("version", "pr-43"); ("language", "es")]
      "es" eq_refl eq_refl eq_refl _ _) Sample.pip_es _);
      try discriminate.
    right. split; [discriminate | reflexivity].
Defined.



(** C7, the claim as stated fails: [hub] has the subproject [sub], the
    single-version project [manual], which has the subproject [sub2];
    the path resolves to the file [/projects/sub2/] of [manual]. *)
Lemma nested_subproject_path_counterexample :
  find_subproject Sample.db Sample.hub "sub"
  = Some (ProjectRelationship.mk "sub" Sample.manual)
  /\ find_subproject Sample.db Sample.manual "sub2"
     = Some (ProjectRelationship.mk "sub2" Sample.sub2)
  /\ _unresolve_path_with_parent_project
       Sample.pattern_opts Sample.db 2 Sample.hub
       "/projects/sub/projects/sub2/" true None
     = Return (Sample.manual, Sample.latest 50, "/projects/sub2/")
  /\ forall project path,
       _unresolve_path_with_parent_project
         Sample.pattern_opts Sample.db 2 Sample.hub
         "/projects/sub/projects/sub2/" true None
       <> Raise (InvalidPathForVersionedProjectError project path).
Proof. repeat split; try reflexivity. discriminate. Qed.

(** C7, amended.  The path [/projects/sub/projects/sub2/] enters the
    subproject with alias [sub] and the rest, [/projects/sub2/], is
    resolved against that subproject without the subproject strategy:
    when the subproject is a multiversion project (and [projects] is not
    a language of the pattern table) the resolver raises
    [InvalidPathForVersionedProjectError] for the subproject and the
    path [/projects/sub2/]; when it is a single-version project the rest
    is a file of that subproject.  The subproject's own subprojects are
    not looked at in either case. *)
Theorem nested_subproject_path opts db fuel parent rel ext m :
  let path := "/projects/sub/projects/sub2/" in
  let sub := ProjectRelationship.child rel in
  let result :=
    _unresolve_path_with_parent_project opts db fuel parent path true ext in
  2 <= fuel ->
  Project.single_version parent = true
  \/ Re.match_ (multiversion_pattern opts) path = None ->
  Re.match_ (subproject_pattern opts) path = Some m ->
  Re.group m "project" = Some "sub" ->
  Re.group m "file" = Some "projects/sub2/" ->
  find_subproject db parent "sub" = Some rel ->
  (Project.single_version sub = false ->
   Re.match_ (multiversion_pattern opts) "/projects/sub2/" = None ->
   result = Raise (InvalidPathForVersionedProjectError sub "/projects/sub2/"))
  /\ (Project.single_version sub = true ->
      (exists version, result = Return (sub, version, "/projects/sub2/"))
      \/ (exists version_slug,
             result = Raise (VersionNotFoundError
                               sub version_slug "/projects/sub2/"))).
Proof.
  intros path sub result Hfuel Hparent Hm Hp Hf Hrel. subst result.
  rewrite enough_fuel by exact Hfuel.
  assert (Hstep :
    _unresolve_path_with_parent_project opts db 2 parent path true ext
    = _unresolve_path_with_parent_project
        opts db 1 sub "/projects/sub2/" false ext).
  { rewrite (resolve_eq opts db 1 parent).
    assert (Hmv :
      (if negb (Project.single_version parent)
       then _match_multiversion_project opts db parent path ext
       else Return None) = Return None).
    { destruct Hparent as [Hsv|Hno]; [now rewrite Hsv|].
      destruct (negb _); [|reflexivity].
      unfold _match_multiversion_project. now rewrite Hno. }
    rewrite Hmv. cbn [bind].
    unfold _match_subproject. rewrite Hm, Hp, Hf, Hrel.
    change (_normalize_filename (Some "projects/sub2/"))
      with "/projects/sub2/".
    fold sub.
    pose proof (depth_one_returns opts db sub "/projects/sub2/" ext) as Hr.
    destruct (_unresolve_path_with_parent_project
                opts db 1 sub "/projects/sub2/" false ext);
      cbn [bind]; congruence. }
  rewrite Hstep, resolve_eq. split.
  - intros Hsv Hno. rewrite Hsv. cbn [negb].
    unfold _match_multiversion_project. rewrite Hno. reflexivity.
  - intros Hsv. rewrite Hsv. cbn [negb bind].
    unfold _match_single_version_project.
    change (_normalize_filename (Some "/projects/sub2/"))
      with "/projects/sub2/".
    destruct (Str.truthy_opt ext);
      destruct (find_version _ _ _ _); cbn [bind]; eauto.
Qed.

Lemma nested_subproject_path_witness :
  _unresolve_path_with_parent_project
    Sample.pattern_opts Sample.db 2 Sample.pip
    "/projects/sub/projects/sub2/" true None
  = Raise (InvalidPathForVersionedProjectError Sample.sub "/projects/sub2/").
Proof.
  refine (proj1 (@nested_subproject_path
    Sample.pattern_opts Sample.db 2 Sample.pip
    (ProjectRelationship.mk "sub" Sample.sub) None
    [("file", "projects/sub2/"); ("project", "sub")]
    _ _ _ _ _ _) _ _);
    try reflexivity; try lia; right; reflexivity.
Defined.

(** C2, the claim as stated fails for the external suffix: under
    settings whose external suffix ends with the public one, the host
    [my-external-builds.readthedocs.io] contains the external suffix,
    its root domain is not that suffix, and it is served as the public
    domain of the project [my-external-builds]. *)
Lemma suspicious_hostname_counterexample :
  let domain := "my-external-builds.readthedocs.io" in
  let external_domain :=
    get_domain_from_host
      (RTD_EXTERNAL_VERSION_DOMAIN Sample.nested_settings) in
  Str.contains external_domain domain = true
  /\ Str.split_once "." domain
     = ("my-external-builds", Some "readthedocs.io")
  /\ "readthedocs.io" <> external_domain
  /\ unresolve_domain Sample.nested_settings Sample.db domain
     = Return
         {| UnresolvedDomain.source_domain := domain;
            UnresolvedDomain.source := DomainSourceType.public_domain;
            UnresolvedDomain.project := Sample.builds;
            UnresolvedDomain.domain := None;
            UnresolvedDomain.external_version_slug := None |}
  /\ unresolve_domain Sample.nested_settings Sample.db domain
     <> Raise (SuspiciousHostnameError domain).
Proof.
  cbv zeta. split; [reflexivity|]. split; [reflexivity|].
  split; [intros H; vm_compute in H; discriminate|].
  split; [reflexivity | intros H; vm_compute in H; discriminate].
Qed.

(** C2, amended.  A domain that contains the public suffix and whose
    root domain (the part after the first dot, empty if there is none)
    is not that suffix, or that contains the external suffix and whose
    root domain is neither the external nor the public suffix, is refused
    with [SuspiciousHostnameError] carrying the domain, whatever the
    database holds: no project or custom domain is looked up. *)
Theorem suspicious_hostname settings db domain subdomain root :
  let public_domain := get_domain_from_host (PUBLIC_DOMAIN settings) in
  let external_domain :=
    get_domain_from_host (RTD_EXTERNAL_VERSION_DOMAIN settings) in
  let root_domain := match root with Some r => r | None => "" end in
  Str.split_once "." domain = (subdomain, root) ->
  (Str.contains public_domain domain = true /\ root_domain <> public_domain)
  \/ (Str.contains external_domain domain = true
      /\ root_domain <> external_domain
      /\ root_domain <> public_domain) ->
  unresolve_domain settings db domain = Raise (SuspiciousHostnameError domain).
Proof.
  intros public_domain external_domain root_domain Hsplit H.
  unfold unresolve_domain. rewrite Hsplit.
  fold public_domain. fold external_domain. fold root_domain.
  assert (Hpub : root_domain <> public_domain)
    by (destruct H as [[_ H]|(_ & _ & H)]; exact H).
  assert (Ep : String.eqb public_domain root_domain = false)
    by (apply String.eqb_neq; congruence).
  rewrite Ep.
  destruct (Str.contains public_domain domain) eqn:Cp; [reflexivity|].
  destruct H as [[H _]|(Ce & Hext & _)]; [discriminate|].
  rewrite Ce.
  assert (Ee : String.eqb external_domain root_domain = false)
    by (apply String.eqb_neq; congruence).
  now rewrite Ee.
Qed.

Lemma suspicious_hostname_witness :
  unresolve_domain Sample.settings Sample.db "pip.readthedocs.io.evil.com"
  = Raise (SuspiciousHostnameError "pip.readthedocs.io.evil.com")
  /\ unresolve_domain Sample.settings Sample.db "readthedocs.build"
     = Raise (SuspiciousHostnameError "readthedocs.build").
Proof.
  split.
  - refine (@suspicious_hostname Sample.settings Sample.db
              "pip.readthedocs.io.evil.com" "pip"
              (Some "readthedocs.io.evil.com") eq_refl _).
    left. split; [reflexivity | intros H; vm_compute in H; discriminate].
  - refine (@suspicious_hostname Sample.settings Sample.db
              "readthedocs.build" "readthedocs" (Some "build") eq_refl _).
    right. split; [reflexivity|].
    split; intros H; vm_compute in H; discriminate.
Defined.

(** C3, the claim as stated fails: under settings whose external suffix
    ends with the public one, a host whose root domain is exactly the
    external suffix contains the public suffix and is refused before the
    external branch is reached. *)
Lemma external_domain_counterexample :
  let domain := "pip--pr-42.external-builds.readthedocs.io" in
  let external_domain :=
    get_domain_from_host
      (RTD_EXTERNAL_VERSION_DOMAIN Sample.nested_settings) in
  Str.split_once "." domain = ("pip--pr-42", Some external_domain)
  /\ Str.rsplit_once "--" "pip--pr-42" = Some ("pip", "pr-42")
  /\ find (fun p => String.eqb (Project.slug p) "pip")
          (Project_objects Sample.db) = Some Sample.pip
  /\ unresolve_domain Sample.nested_settings Sample.db domain
     = Raise (SuspiciousHostnameError domain).
Proof. repeat split; reflexivity. Qed.

(** C3, amended.  For a domain that does not contain the public suffix
    and whose root domain is exactly the external suffix, the first label
    is cut at the last [--]: without a [--] the classifier raises
    [InvalidExternalDomainError]; when no project has the slug before the
    cut it raises [InvalidSubdomainError]; otherwise it returns the
    project found with [source=external_domain] and the text after the
    cut as [external_version_slug]. *)
Theorem external_domain_classification settings db domain subdomain root :
  let public_domain := get_domain_from_host (PUBLIC_DOMAIN settings) in
  let external_domain :=
    get_domain_from_host (RTD_EXTERNAL_VERSION_DOMAIN settings) in
  let root_domain := match root with Some r => r | None => "" end in
  Str.split_once "." domain = (subdomain, root) ->
  Str.contains public_domain domain = false ->
  root_domain = external_domain ->
  (Str.contains "--" subdomain = false ->
   unresolve_domain settings db domain
   = Raise (InvalidExternalDomainError domain))
  /\ (forall project_slug version_slug,
         subdomain = (project_slug ++ "--" ++ version_slug)%string ->
         Str.contains "--" ("-" ++ version_slug) = false ->
         ((forall p, In p (Project_objects db) ->
                     Project.slug p <> project_slug) ->
          unresolve_domain settings db domain
          = Raise (InvalidSubdomainError domain))
         /\ ((exists p, In p (Project_objects db)
                        /\ Project.slug p = project_slug) ->
             exists project,
               In project (Project_objects db)
               /\ Project.slug project = project_slug
               /\ unresolve_domain settings db domain
                  = Return
                      {| UnresolvedDomain.source_domain := domain;
                         UnresolvedDomain.source :=
                           DomainSourceType.external_domain;
                         UnresolvedDomain.project := project;
                         UnresolvedDomain.domain := None;
                         UnresolvedDomain.external_version_slug :=
                           Some version_slug |})).
Proof.
  intros public_domain external_domain root_domain Hsplit Hpub Hroot.
  assert (Hext : Str.contains external_domain domain = true).
  { rewrite <- Hroot. eapply StrFacts.root_in_domain; eauto. }
  assert (Heq : String.eqb external_domain root_domain = true)
    by (apply String.eqb_eq; congruence).
  assert (Hunfold :
    unresolve_domain settings db domain
    = match Str.rsplit_once "--" subdomain with
      | Some (project_slug, version_slug) =>
          project <- _resolve_project_slug db project_slug domain ;;
          Return
            {| UnresolvedDomain.source_domain := domain;
               UnresolvedDomain.source := DomainSourceType.external_domain;
               UnresolvedDomain.project := project;
               UnresolvedDomain.domain := None;
               UnresolvedDomain.external_version_slug := Some version_slug |}
      | None => Raise (InvalidExternalDomainError domain)
      end).
  { unfold unresolve_domain. rewrite Hsplit.
    fold public_domain. fold external_domain. fold root_domain.
    now rewrite Hpub, Hext, Heq. }
  rewrite Hunfold. split.
  - intros Hno. now rewrite (StrFacts.rsplit_once_none _ _ Hno).
  - intros project_slug version_slug -> Hlast.
    rewrite (@StrFacts.rsplit_once_last
               "--" project_slug version_slug "-" ("-" ++ version_slug)
               eq_refl Hlast).
    unfold _resolve_project_slug. split.
    + intros Hnone. rewrite find_absent; [reflexivity|].
      intros p Hp. apply String.eqb_neq. now apply Hnone.
    + intros [p [Hin Hslug]].
      destruct (find_present
                  (fun p => String.eqb (Project.slug p) project_slug)
                  (Project_objects db)) as (y & Hy & Hiny & Hfy).
      { exists p. split; [exact Hin | now apply String.eqb_eq]. }
      exists y. rewrite Hy. apply String.eqb_eq in Hfy.
      repeat split; assumption.
Qed.

Lemma external_domain_classification_witness :
  unresolve_domain Sample.settings Sample.db "pip--pr-42.readthedocs.build"
  = Return
      {| UnresolvedDomain.source_domain := "pip--pr-42.readthedocs.build";
         UnresolvedDomain.source := DomainSourceType.external_domain;
         UnresolvedDomain.project := Sample.pip;
         UnresolvedDomain.domain := None;
         UnresolvedDomain.external_version_slug := Some "pr-42" |}
  /\ unresolve_domain Sample.settings Sample.db "pip.readthedocs.build"
     = Raise (InvalidExternalDomainError "pip.readthedocs.build").
Proof.
  split.
  - destruct (proj2 (proj2 (@external_domain_classification
        Sample.settings Sample.db "pip--pr-42.readthedocs.build"
        "pip--pr-42" (Some "readthedocs.build") eq_refl eq_refl eq_refl)
        "pip" "pr-42" eq_refl eq_refl))
      as (project & Hin & Hslug & Hres).
    + exists Sample.pip. split; [left|]; reflexivity.
    + rewrite Hres. f_equal. f_equal.
      simpl in Hin.
      repeat (destruct Hin as [<-|Hin]; [try discriminate; reflexivity|]).
      destruct Hin.
  - refine (proj1 (@external_domain_classification
        Sample.settings Sample.db "pip.readthedocs.build"
        "pip" (Some "readthedocs.build") eq_refl eq_refl eq_refl) eq_refl).
Defined.

(** C4.  With a non-empty [X-RTD-Slug] header the request is classified
    from the header alone: when a project with the (lower-cased) slug has
    the feature [RESOLVE_PROJECT_FROM_HEADER] such a project is returned
    with [source=http_header]; when none has, [InvalidXRTDSlugHeaderError]
    is raised; nothing else is returned or raised, so the host is never
    classified.  With the header absent or empty the outcome is that of
    [unresolve_domain] on the normalised host. *)
Theorem header_override settings db request :
  let host := get_domain_from_host (get_host request) in
  let header := headers_get request "X-RTD-Slug" "" in
  let enabled p :=
    In p (Project_objects db)
    /\ Project.slug p = Str.lower header
    /\ In RESOLVE_PROJECT_FROM_HEADER (features db p) in
  let result := unresolve_domain_from_request settings db request in
  (header <> "" ->
   ((exists p, enabled p) ->
    exists project,
      enabled project
      /\ result
         = Return
             {| UnresolvedDomain.source_domain := host;
                UnresolvedDomain.source := DomainSourceType.http_header;
                UnresolvedDomain.project := project;
                UnresolvedDomain.domain := None;
                UnresolvedDomain.external_version_slug := None |})
   /\ ((forall p, ~ enabled p) -> result = Raise InvalidXRTDSlugHeaderError)
   /\ (forall u,
          result = Return u ->
          UnresolvedDomain.source u = DomainSourceType.http_header
          /\ enabled (UnresolvedDomain.project u))
   /\ (forall e, result = Raise e -> e = InvalidXRTDSlugHeaderError)
   /\ result <> OutOfFuel)
  /\ (header = "" -> result = unresolve_domain settings db host).
Proof.
  intros host header enabled result.
  set (wanted := fun p =>
         String.eqb (Project.slug p) (Str.lower header)
         && existsb (FeatureId_eqb RESOLVE_PROJECT_FROM_HEADER)
                    (features db p)).
  assert (Hwanted : forall p,
             In p (Project_objects db) ->
             (wanted p = true <-> enabled p)).
  { intros p Hin. unfold wanted, enabled.
    rewrite andb_true_iff, String.eqb_eq, has_feature. tauto. }
  split.
  - intros Hheader.
    assert (Ht : Str.truthy (Str.lower header) = true).
    { rewrite StrFacts.truthy_lower.
      destruct header; [congruence | reflexivity]. }
    assert (Hres :
      result = match find wanted (Project_objects db) with
               | Some project =>
                   Return
                     {| UnresolvedDomain.source_domain := host;
                        UnresolvedDomain.source :=
                          DomainSourceType.http_header;
                        UnresolvedDomain.project := project;
                        UnresolvedDomain.domain := None;
                        UnresolvedDomain.external_version_slug := None |}
               | None => Raise InvalidXRTDSlugHeaderError
               end).
    { subst result. unfold unresolve_domain_from_request.
      fold header. now rewrite Ht. }
    rewrite Hres. split; [|split; [|split; [|split]]].
    + intros [p Hp].
      destruct (find_present wanted (Project_objects db))
        as (y & Hy & Hin & Hw).
      { exists p. split; [apply Hp | apply Hwanted; [apply Hp | exact Hp]]. }
      exists y. rewrite Hy. split; [now apply Hwanted | reflexivity].
    + intros Hnone. rewrite find_absent; [reflexivity|].
      intros x Hx. destruct (wanted x) eqn:Hw; [|reflexivity].
      apply Hwanted in Hw; [|exact Hx]. now apply Hnone in Hw.
    + intros u.
      destruct (find wanted (Project_objects db)) as [y|] eqn:Hy;
        [|discriminate].
      intros E. inversion E; subst u. split; [reflexivity|].
      cbn [UnresolvedDomain.project].
      apply find_some in Hy as [Hin Hw]. now apply Hwanted.
    + intros e. destruct (find wanted (Project_objects db)); [discriminate|].
      intros E. now inversion E.
    + destruct (find wanted (Project_objects db)); discriminate.
  - intros Hempty. subst result. unfold unresolve_domain_from_request.
    fold header. rewrite Hempty. reflexivity.
Qed.

Lemma header_override_witness :
  let request :=
    {| get_host := "Docs.Example.com:8000";
       headers := [("Accept", "*/*"); ("x-rtd-slug", "PIP")] |} in
  unresolve_domain_from_request Sample.settings Sample.db request
  = Return
      {| UnresolvedDomain.source_domain := "docs.example.com";
         UnresolvedDomain.source := DomainSourceType.http_header;
         UnresolvedDomain.project := Sample.pip;
         UnresolvedDomain.domain := None;
         UnresolvedDomain.external_version_slug := None |}.
Proof.
  intros request.
  destruct (proj1 (header_override Sample.settings Sample.db request))
    as (Hsome & _).
  { intros H. vm_compute in H. discriminate. }
  destruct Hsome as (project & (Hin & Hslug & _) & Hres).
  { exists Sample.pip. repeat split; try reflexivity; simpl; auto. }
  rewrite Hres. f_equal. f_equal.
  simpl in Hin.
  repeat (destruct Hin as [<-|Hin];
          [try reflexivity; vm_compute in Hslug; discriminate|]).
  destruct Hin.
Defined.

(** C9.  Every [UnresolvedDomain] returned by [unresolve_domain] or by
    [unresolve_domain_from_request] has a [domain] exactly when its
    source is [custom_domain], and an [external_version_slug] exactly
    when its source is [external_domain]. *)
Theorem unresolved_domain_invariant settings db :
  let invariant u :=
    (UnresolvedDomain.domain u <> None
     <-> UnresolvedDomain.source u = DomainSourceType.custom_domain)
    /\ (UnresolvedDomain.external_version_slug u <> None
        <-> UnresolvedDomain.source u = DomainSourceType.external_domain) in
  (forall domain u,
      unresolve_domain settings db domain = Return u -> invariant u)
  /\ (forall request u,
         unresolve_domain_from_request settings db request = Return u ->
         invariant u).
Proof.
  intros invariant.
  assert (Hdomain : forall domain u,
             unresolve_domain settings db domain = Return u -> invariant u).
  { intros domain u. unfold unresolve_domain.
    destruct (Str.split_once "." domain) as [subdomain root].
    destruct (Str.contains _ domain).
    - destruct (String.eqb _ _); [|discriminate].
      destruct (_resolve_project_slug db subdomain domain);
        cbn [bind]; try discriminate.
      intros E; inversion E; subst u. unfold invariant; simpl.
      repeat split; congruence.
    - destruct (Str.contains _ domain).
      + destruct (String.eqb _ _); [|discriminate].
        destruct (Str.rsplit_once "--" subdomain) as [[ps vs]|];
          [|discriminate].
        destruct (_resolve_project_slug db ps domain);
          cbn [bind]; try discriminate.
        intros E; inversion E; subst u. unfold invariant; simpl.
        repeat split; congruence.
      + destruct (find _ (Domain_objects db)); [|discriminate].
        intros E; inversion E; subst u. unfold invariant; simpl.
        repeat split; congruence. }
  split; [exact Hdomain|].
  intros request u. unfold unresolve_domain_from_request.
  destruct (Str.truthy _); [|apply Hdomain].
  destruct (find _ (Project_objects db)); [|discriminate].
  intros E; inversion E; subst u. unfold invariant; simpl.
  repeat split; congruence.
Qed.

Lemma unresolved_domain_invariant_witness :
  exists u,
    unresolve_domain Sample.settings Sample.db "docs.pip.org" = Return u
    /\ (UnresolvedDomain.domain u <> None
        <-> UnresolvedDomain.source u = DomainSourceType.custom_domain)
    /\ (UnresolvedDomain.external_version_slug u <> None
        <-> UnresolvedDomain.source u = DomainSourceType.external_domain).
Proof.
  eexists. split; [reflexivity|].
  exact (proj1 (unresolved_domain_invariant Sample.settings Sample.db)
               "docs.pip.org" _ eq_refl).
Defined.

(** C10, the claim as stated fails: under settings whose external suffix
    ends with the public one, the host [pip--.external-builds.readthedocs.io]
    has the stated form, [pip] being a project, but it contains the
    public suffix and is refused before the external branch is reached. *)
Lemma empty_external_version_slug_counterexample :
  let external_domain :=
    get_domain_from_host
      (RTD_EXTERNAL_VERSION_DOMAIN Sample.nested_settings) in
  let host := ("pip" ++ "--." ++ external_domain)%string in
  host = "pip--.external-builds.readthedocs.io"
  /\ Str.split_once "." host = ("pip--", Some external_domain)
  /\ Str.rsplit_once "--" "pip--" = Some ("pip", "")
  /\ find (fun p => String.eqb (Project.slug p) "pip")
          (Project_objects Sample.db) = Some Sample.pip
  /\ unresolve_domain Sample.nested_settings Sample.db host
     = Raise (SuspiciousHostnameError host).
Proof. cbv zeta. repeat split; reflexivity. Qed.

(** C10, amended.  A host [slug--.<external suffix>] that does not
    contain the public suffix, [slug] being the slug of a project, is
    classified as an external domain whose [external_version_slug] is the
    empty string, and no host of that form is refused with
    [InvalidExternalDomainError]; the path resolver treats the empty slug
    as it treats no slug at all, so versions come from the internal
    manager and [InvalidExternalVersionError] is never raised; and
    [_unresolve] on such a domain does what it does without a slug,
    except that the [UnresolvedURL] it builds has [external=True]. *)
Theorem empty_external_version_slug :
  (forall settings db slug,
      let public_domain := get_domain_from_host (PUBLIC_DOMAIN settings) in
      let external_domain :=
        get_domain_from_host (RTD_EXTERNAL_VERSION_DOMAIN settings) in
      let host := (slug ++ "--." ++ external_domain)%string in
      Str.contains "." slug = false ->
      Str.contains public_domain host = false ->
      (exists p, In p (Project_objects db) /\ Project.slug p = slug) ->
      exists project,
        In project (Project_objects db)
        /\ Project.slug project = slug
        /\ unresolve_domain settings db host
           = Return
               {| UnresolvedDomain.source_domain := host;
                  UnresolvedDomain.source := DomainSourceType.external_domain;
                  UnresolvedDomain.project := project;
                  UnresolvedDomain.domain := None;
                  UnresolvedDomain.external_version_slug := Some "" |})
  /\ (forall settings db slug domain,
         let external_domain :=
           get_domain_from_host (RTD_EXTERNAL_VERSION_DOMAIN settings) in
         let host := (slug ++ "--." ++ external_domain)%string in
         Str.contains "." slug = false ->
         unresolve_domain settings db host
         <> Raise (InvalidExternalDomainError domain))
  /\ (forall opts db fuel parent path check_subprojects,
         _unresolve_path_with_parent_project
           opts db fuel parent path check_subprojects (Some "")
         = _unresolve_path_with_parent_project
             opts db fuel parent path check_subprojects None)
  /\ (forall opts db fuel parent path check_subprojects p v e,
         _unresolve_path_with_parent_project
           opts db fuel parent path check_subprojects (Some "")
         <> Raise (InvalidExternalVersionError p v e))
  /\ (forall opts db fuel parent path,
         Project.single_version parent = true ->
         _unresolve_path_with_parent_project
           opts db (S fuel) parent path false (Some "")
         = match find_version db parent INTERNAL
                              (Some (Project.default_version parent)) with
           | Some version =>
               Return (parent, version, _normalize_filename (Some path))
           | None =>
               Raise (VersionNotFoundError
                        parent (Some (Project.default_version parent))
                        (_normalize_filename (Some path)))
           end)
  /\ (forall opts db fuel ud parsed_url append_indexhtml,
         UnresolvedDomain.source ud = DomainSourceType.external_domain ->
         UnresolvedDomain.external_version_slug ud = Some "" ->
         _unresolve opts db fuel ud parsed_url append_indexhtml
         = (r <- _unresolve_path_with_parent_project
                   opts db fuel (UnresolvedDomain.project ud)
                   (path parsed_url) true None ;;
            let '(current_project, version, filename) := r in
            Return
              {| UnresolvedURL.parent_project := UnresolvedDomain.project ud;
                 UnresolvedURL.project := current_project;
                 UnresolvedURL.version := version;
                 UnresolvedURL.filename :=
                   if append_indexhtml && Str.endswith_char "/" filename
                   then (filename ++ "index.html")%string else filename;
                 UnresolvedURL.parsed_url := parsed_url;
                 UnresolvedURL.domain := UnresolvedDomain.domain ud;
                 UnresolvedURL.external := true |})
         /\ (2 <= fuel ->
             _unresolve opts db fuel ud parsed_url append_indexhtml
             <> OutOfFuel)).
Proof.
  assert (Hsame : forall opts db fuel parent path check_subprojects,
             _unresolve_path_with_parent_project
               opts db fuel parent path check_subprojects (Some "")
             = _unresolve_path_with_parent_project
                 opts db fuel parent path check_subprojects None).
  { intros opts db fuel.
    induction fuel as [|fuel IH]; intros parent path cs; [reflexivity|].
    rewrite !resolve_eq.
    change (_match_multiversion_project opts db parent path (Some ""))
      with (_match_multiversion_project opts db parent path None).
    change (_match_single_version_project db parent path (Some ""))
      with (_match_single_version_project db parent path None).
    assert (Hsub :
      _match_subproject
        opts db (_unresolve_path_with_parent_project opts db fuel)
        parent path (Some "")
      = _match_subproject
          opts db (_unresolve_path_with_parent_project opts db fuel)
          parent path None).
    { unfold _match_subproject.
      destruct (Re.match_ _ path) as [m|]; [|reflexivity].
      destruct (Re.group m "project") as [a|]; [|reflexivity].
      destruct (find_subproject db parent a) as [rel|]; [|reflexivity].
      now rewrite IH. }
    now rewrite Hsub. }
  assert (Hnever : forall opts db fuel parent path check_subprojects p v e,
             _unresolve_path_with_parent_project
               opts db fuel parent path check_subprojects None
             <> Raise (InvalidExternalVersionError p v e)).
  { intros opts db fuel.
    induction fuel as [|fuel IH]; intros parent path cs p v e;
      [discriminate|].
    rewrite resolve_eq.
    assert (Hmv : forall r,
      _match_multiversion_project opts db parent path None = r ->
      r <> Raise (InvalidExternalVersionError p v e)).
    { intros r <-. unfold _match_multiversion_project.
      destruct (Re.match_ _ path) as [m|]; [|discriminate].
      destruct (Re.group m "language") as [language|]; [|discriminate].
      destruct (String.eqb _ language); cbn [bind Str.truthy_opt andb].
      - destruct (find_version _ _ _ _); discriminate.
      - destruct (find_translation db parent language);
          cbn [bind Str.truthy_opt andb]; [|discriminate].
        destruct (find_version _ _ _ _); discriminate. }
    assert (Hsv : forall r,
      _match_single_version_project db parent path None = r ->
      r <> Raise (InvalidExternalVersionError p v e)).
    { intros r <-. unfold _match_single_version_project.
      cbn [Str.truthy_opt].
      destruct (find_version _ _ _ _); discriminate. }
    assert (Hsp : forall r,
      _match_subproject
        opts db (_unresolve_path_with_parent_project opts db fuel)
        parent path None = r ->
      r <> Raise (InvalidExternalVersionError p v e)).
    { intros r <-. unfold _match_subproject.
      destruct (Re.match_ _ path) as [m|]; [|discriminate].
      destruct (Re.group m "project") as [a|]; [|discriminate].
      destruct (find_subproject db parent a) as [rel|]; [|discriminate].
      specialize (IH (ProjectRelationship.child rel)
                     (_normalize_filename (Re.group m "file")) false p v e).
      destruct (_unresolve_path_with_parent_project opts db fuel _ _ _ _);
        cbn [bind]; congruence. }
    destruct (Project.single_version parent); cbn [negb bind].
    - destruct cs; cbn [bind].
      + specialize (Hsp _ eq_refl).
        destruct (_match_subproject _ _ _ parent path None) as [[r|]| |];
          cbn [bind]; try congruence.
        specialize (Hsv _ eq_refl).
        destruct (_match_single_version_project db parent path None)
          as [[r|]| |]; cbn [bind]; congruence.
      + specialize (Hsv _ eq_refl).
        destruct (_match_single_version_project db parent path None)
          as [[r|]| |]; cbn [bind]; congruence.
    - specialize (Hmv _ eq_refl).
      destruct (_match_multiversion_project opts db parent path None)
        as [[r|]| |]; cbn [bind]; try congruence.
      destruct cs; cbn [bind]; [|discriminate].
      specialize (Hsp _ eq_refl).
      destruct (_match_subproject _ _ _ parent path None) as [[r|]| |];
        cbn [bind]; congruence. }
  assert (Hsplit : forall external_domain slug,
             Str.contains "." slug = false ->
             Str.split_once "." (slug ++ "--." ++ external_domain)
             = ((slug ++ "--")%string, Some external_domain)).
  { intros external_domain slug Hdot.
    induction slug as [|a slug IH]; [reflexivity|].
    rewrite StrFacts.contains_step in Hdot.
    apply orb_false_iff in Hdot as [Ha Hs].
    cbn [Str.startswith] in Ha. rewrite andb_true_r in Ha.
    specialize (IH Hs). simpl in IH |- *.
    rewrite Ascii.eqb_sym, Ha, IH. reflexivity. }
  split; [|split; [|split; [exact Hsame|split; [|split]]]].
  - intros settings db slug public_domain external_domain host
           Hdot Hpub Hknown.
    pose proof (Hsplit external_domain slug Hdot) as Hs. fold host in Hs.
    assert (Hext : Str.contains external_domain host = true)
      by exact (StrFacts.root_in_domain _ Hs).
    destruct (find_present
                (fun p => String.eqb (Project.slug p) slug)
                (Project_objects db)) as (y & Hy & Hin & Hfy).
    { destruct Hknown as [p [Hin Hslug]].
      exists p. split; [exact Hin | now apply String.eqb_eq]. }
    exists y. apply String.eqb_eq in Hfy.
    split; [exact Hin|]. split; [exact Hfy|].
    unfold unresolve_domain. rewrite Hs.
    fold public_domain. fold external_domain.
    rewrite Hpub, Hext, String.eqb_refl.
    rewrite (@StrFacts.rsplit_once_trailing "--" slug "-" "-" eq_refl).
    unfold _resolve_project_slug. now rewrite Hy.
  - intros settings db slug domain external_domain host Hdot.
    pose proof (Hsplit external_domain slug Hdot) as Hs. fold host in Hs.
    unfold unresolve_domain. rewrite Hs. fold external_domain.
    unfold _resolve_project_slug.
    destruct (Str.contains _ host).
    + destruct (String.eqb _ _); [|discriminate].
      destruct (find _ (Project_objects db)); discriminate.
    + destruct (Str.contains external_domain host); [|].
      * destruct (String.eqb external_domain external_domain);
          [|discriminate].
        rewrite (@StrFacts.rsplit_once_trailing "--" slug "-" "-" eq_refl).
        destruct (find _ (Project_objects db)); discriminate.
      * destruct (find _ (Domain_objects db)); discriminate.
  - intros opts db fuel parent path cs p v e.
    rewrite Hsame. apply Hnever.
  - intros opts db fuel parent path Hsv.
    rewrite Hsame, resolve_eq, Hsv. cbn [negb bind].
    unfold _match_single_version_project. cbn [Str.truthy_opt].
    destruct (find_version _ _ _ _); reflexivity.
  - intros opts db fuel ud parsed_url append Hsource Hslug.
    unfold _unresolve. rewrite Hslug, Hsame.
    unfold UnresolvedDomain.is_from_external_domain. rewrite Hsource.
    split; [reflexivity|].
    intros Hfuel. rewrite enough_fuel by exact Hfuel.
    pose proof (depth_two_returns
                  opts db (UnresolvedDomain.project ud)
                  (path parsed_url) true None) as Hr.
    destruct (_unresolve_path_with_parent_project opts db 2 _ _ true None)
      as [[[cp v] f]| |]; cbn [bind]; congruence.
Qed.

Lemma empty_external_version_slug_witness :
  let ud :=
    {| UnresolvedDomain.source_domain := "pip--.readthedocs.build";
       UnresolvedDomain.source := DomainSourceType.external_domain;
       UnresolvedDomain.project := Sample.pip;
       UnresolvedDomain.domain := None;
       UnresolvedDomain.external_version_slug := Some "" |} in
  let parsed :=
    {| scheme := ""; netloc := ""; path := "/en/latest/";
       params := ""; query := ""; fragment := "" |} in
  unresolve_domain Sample.settings Sample.db "pip--.readthedocs.build"
  = Return ud
  /\ _unresolve_path_with_parent_project
       Sample.pattern_opts Sample.db 2 Sample.pip "/en/latest/" true (Some "")
     = Return (Sample.pip, Sample.latest 10, "/")
  /\ _unresolve Sample.pattern_opts Sample.db 2 ud parsed true
     = Return
         {| UnresolvedURL.parent_project := Sample.pip;
            UnresolvedURL.project := Sample.pip;
            UnresolvedURL.version := Sample.latest 10;
            UnresolvedURL.filename := "/index.html";
            UnresolvedURL.parsed_url := parsed;
            UnresolvedURL.domain := None;
            UnresolvedURL.external := true |}
  /\ _unresolve Sample.pattern_opts Sample.db 2 ud parsed true <> OutOfFuel.
Proof.
  intros ud parsed.
  destruct empty_external_version_slug
    as (Hclass & _ & Hsame & _ & _ & Hfacade).
  split; [|split; [|split]].
  - destruct (Hclass Sample.settings Sample.db "pip" eq_refl eq_refl)
      as (project & Hin & Hslug & Hres).
    { exists Sample.pip. split; [left|]; reflexivity. }
    change ("pip" ++ "--." ++
            get_domain_from_host
              (RTD_EXTERNAL_VERSION_DOMAIN Sample.settings))%string
      with "pip--.readthedocs.build" in Hres.
    rewrite Hres. unfold ud. f_equal. f_equal.
    simpl in Hin.
    repeat (destruct Hin as [<-|Hin];
            [try reflexivity; vm_compute in Hslug; discriminate|]).
    destruct Hin.
  - rewrite Hsame. vm_compute. reflexivity.
  - rewrite (proj1 (Hfacade Sample.pattern_opts Sample.db 2 ud parsed true
                            eq_refl eq_refl)).
    vm_compute. reflexivity.
  - exact (proj2 (Hfacade Sample.pattern_opts Sample.db 2 ud parsed true
                          eq_refl eq_refl) (le_n 2)).
Defined.

(** * Further properties of the module *)

(** ** File names and host names *)

Module NormalFacts.

(** On the ASCII characters lower-casing is idempotent and stays within
    ASCII; nothing is used of it on the other characters. *)
Lemma lower_ascii_idem c :
  (nat_of_ascii c <? 128)%nat = true ->
  Str.lower_ascii (Str.lower_ascii c) = Str.lower_ascii c.
Proof.
  destruct c as [b0 b1 b2 b3 b4 b5 b6 b7].
  destruct b0, b1, b2, b3, b4, b5, b6, b7; intros H;
    try (vm_compute in H; discriminate H); reflexivity.
Qed.

Lemma lower_ascii_below c :
  (nat_of_ascii c <? 128)%nat = true ->
  (nat_of_ascii (Str.lower_ascii c) <? 128)%nat = true.
Proof.
  destruct c as [b0 b1 b2 b3 b4 b5 b6 b7].
  destruct b0, b1, b2, b3, b4, b5, b6, b7; intros H;
    try (vm_compute in H; discriminate H); reflexivity.
Qed.

Lemma lower_idem s :
  Str.is_ascii s = true -> Str.lower (Str.lower s) = Str.lower s.
Proof.
  induction s as [|a s IH]; [reflexivity|].
  cbn [Str.is_ascii Str.lower]. intros H.
  apply andb_true_iff in H as [Ha Hs].
  now rewrite (lower_ascii_idem a Ha), (IH Hs).
Qed.

(** The text before the first separator holds no separator, and a text
    without separator is its own first part. *)
Lemma split_once_head_clean c s :
  Str.contains (String c "") (fst (Str.split_once c s)) = false.
Proof.
  induction s as [|a s IH]; [reflexivity|]. simpl.
  destruct (Ascii.eqb a c) eqn:E; [reflexivity|].
  destruct (Str.split_once c s) as [h r]. simpl in IH |- *.
  rewrite IH, Ascii.eqb_sym, E. reflexivity.
Qed.

Lemma split_once_clean c s :
  Str.contains (String c "") s = false -> Str.split_once c s = (s, None).
Proof.
  induction s as [|a s IH]; [reflexivity|].
  rewrite StrFacts.contains_step. intros H.
  apply orb_false_iff in H as [Ha Hs].
  cbn [Str.startswith] in Ha. rewrite andb_true_r in Ha.
  simpl. now rewrite Ascii.eqb_sym, Ha, (IH Hs).
Qed.

(** Cutting a lower-cased ASCII text leaves a lower-case text. *)
Lemma lower_split_once_head c s :
  Str.is_ascii s = true ->
  Str.lower (fst (Str.split_once c (Str.lower s)))
  = fst (Str.split_once c (Str.lower s)).
Proof.
  induction s as [|a s IH]; [reflexivity|].
  cbn [Str.is_ascii Str.lower Str.split_once]. intros H.
  apply andb_true_iff in H as [Ha Hs].
  destruct (Ascii.eqb (Str.lower_ascii a) c); [reflexivity|].
  specialize (IH Hs).
  destruct (Str.split_once c (Str.lower s)) as [h r].
  cbn [fst Str.lower] in IH |- *.
  now rewrite (lower_ascii_idem a Ha), IH.
Qed.

Lemma get_domain_from_host_idem host :
  Str.is_ascii host = true ->
  get_domain_from_host (get_domain_from_host host)
  = get_domain_from_host host.
Proof.
  intros H. unfold get_domain_from_host.
  rewrite (lower_split_once_head ":" host H).
  rewrite split_once_clean by apply split_once_head_clean.
  reflexivity.
Qed.

(** Lower-casing and cutting keep ASCII text ASCII. *)
Lemma lower_is_ascii s :
  Str.is_ascii s = true -> Str.is_ascii (Str.lower s) = true.
Proof.
  induction s as [|a s IH]; [reflexivity|].
  cbn [Str.is_ascii Str.lower]. intros H.
  apply andb_true_iff in H as [Ha Hs].
  now rewrite (lower_ascii_below a Ha), (IH Hs).
Qed.

Lemma split_once_head_is_ascii c s :
  Str.is_ascii s = true -> Str.is_ascii (fst (Str.split_once c s)) = true.
Proof.
  induction s as [|a s IH]; [reflexivity|].
  cbn [Str.is_ascii Str.split_once]. intros H.
  apply andb_true_iff in H as [Ha Hs].
  destruct (Ascii.eqb a c); [reflexivity|].
  specialize (IH Hs). destruct (Str.split_once c s) as [h r].
  cbn [fst Str.is_ascii] in IH |- *. now rewrite Ha, IH.
Qed.

Lemma get_domain_from_host_ascii host :
  Str.is_ascii host = true ->
  Str.is_ascii (get_domain_from_host host) = true.
Proof.
  intros H. unfold get_domain_from_host.
  now apply split_once_head_is_ascii, lower_is_ascii.
Qed.

Lemma startswith_slash_app s t :
  Str.startswith "/" s = true -> Str.startswith "/" (s ++ t) = true.
Proof. destruct s as [|a s]; [discriminate|]. simpl. now rewrite !andb_true_r. Qed.

Lemma normalize_filename_slash filename :
  Str.startswith "/" (_normalize_filename filename) = true.
Proof.
  unfold _normalize_filename.
  destruct filename as [f|]; [|reflexivity].
  destruct (Str.truthy f); [|reflexivity].
  destruct (Str.startswith "/" f) eqn:E; [exact E | reflexivity].
Qed.

(** [s.endswith(c)] looks at the end only. *)
Lemma endswith_char_app c s a t :
  Str.endswith_char c (s ++ String a t) = Str.endswith_char c (String a t).
Proof.
  induction s as [|b s IH]; [reflexivity|].
  change (String b s ++ String a t)%string with (String b (s ++ String a t)).
  cbn [Str.endswith_char].
  destruct (s ++ String a t)%string eqn:E; [|exact IH].
  destruct s; discriminate.
Qed.

End NormalFacts.

(** X1.  [_normalize_filename] always returns a name that starts with
    [/]: [None] and the empty name become [/], a name that starts with
    [/] is returned as it is, any other name gets one [/] in front, and
    normalising twice changes nothing. *)
Theorem normalize_filename_spec :
  forall filename s,
    Str.startswith "/" (_normalize_filename filename) = true
    /\ _normalize_filename (Some (_normalize_filename filename))
       = _normalize_filename filename
    /\ _normalize_filename None = "/"
    /\ _normalize_filename (Some "") = "/"
    /\ (Str.startswith "/" s = true -> _normalize_filename (Some s) = s)
    /\ (s <> "" -> Str.startswith "/" s = false ->
        _normalize_filename (Some s) = String "/" s).
Proof.
  intros filename s. split; [apply NormalFacts.normalize_filename_slash|].
  assert (Hfix : forall t, Str.startswith "/" t = true ->
                           _normalize_filename (Some t) = t).
  { intros t Ht. unfold _normalize_filename.
    destruct t as [|a t]; [discriminate|]. cbn [Str.truthy]. now rewrite Ht. }
  split; [apply Hfix, NormalFacts.normalize_filename_slash|].
  split; [reflexivity|]. split; [reflexivity|]. split; [apply Hfix|].
  intros Hs Hno. unfold _normalize_filename.
  destruct s as [|a s]; [congruence|]. cbn [Str.truthy]. now rewrite Hno.
Qed.

Lemma normalize_filename_spec_witness :
  _normalize_filename (Some "/api/index.html") = "/api/index.html"
  /\ _normalize_filename (Some "api/index.html") = "/api/index.html".
Proof.
  split.
  - exact (proj1 (proj2 (proj2 (proj2 (proj2
      (normalize_filename_spec None "/api/index.html"))))) eq_refl).
  - refine (proj2 (proj2 (proj2 (proj2 (proj2
      (normalize_filename_spec None "api/index.html"))))) _ eq_refl).
    discriminate.
Defined.

(** X2.  For a host of ASCII characters, on which the model's [lower] is
    Python's, [get_domain_from_host] gives a host without port and
    without capital letters: the result is ASCII, holds no [:],
    lower-casing it changes nothing, and normalising a normalised host
    changes nothing. *)
Theorem get_domain_from_host_normal host :
  Str.is_ascii host = true ->
  Str.is_ascii (get_domain_from_host host) = true
  /\ Str.contains ":" (get_domain_from_host host) = false
  /\ Str.lower (get_domain_from_host host) = get_domain_from_host host
  /\ get_domain_from_host (get_domain_from_host host)
     = get_domain_from_host host.
Proof.
  intros Hascii.
  split; [now apply NormalFacts.get_domain_from_host_ascii|].
  split; [apply NormalFacts.split_once_head_clean|].
  split; [now apply NormalFacts.lower_split_once_head|].
  now apply NormalFacts.get_domain_from_host_idem.
Qed.

Lemma get_domain_from_host_normal_witness :
  Str.is_ascii "docs.pip.org" = true
  /\ Str.contains ":" "docs.pip.org" = false
  /\ Str.lower "docs.pip.org" = "docs.pip.org"
  /\ get_domain_from_host "docs.pip.org" = "docs.pip.org".
Proof.
  exact (@get_domain_from_host_normal "Docs.Pip.ORG:8000" eq_refl).
Defined.

(** ** What the matchers return and raise *)

Section MatcherFacts.

Variable opts : PatternOpts.
Variable db : Database.

Local Notation "'resolve'" := (_unresolve_path_with_parent_project opts db).
Local Notation "'manager_of' ext" :=
  (if Str.truthy_opt ext then EXTERNAL else INTERNAL) (at level 10).

(** The answers of [_match_multiversion_project], case by case. *)
Lemma match_multiversion_cases parent path ext :
  (Re.match_ (multiversion_pattern opts) path = None
   /\ _match_multiversion_project opts db parent path ext = Return None)
  \/ exists m language,
       Re.match_ (multiversion_pattern opts) path = Some m
       /\ Re.group m "language" = Some language
       /\ let file := _normalize_filename (Re.group m "file") in
          let version_slug := Re.group m "version" in
          (Project.language parent <> language
           /\ find_translation db parent language = None
           /\ _match_multiversion_project opts db parent path ext
              = Raise (TranslationNotFoundError parent language file))
          \/ exists project,
               ((Project.language parent = language /\ project = parent)
                \/ (Project.language parent <> language
                    /\ find_translation db parent language = Some project))
               /\ ((Str.truthy_opt ext = true
                    /\ ext <> version_slug
                    /\ _match_multiversion_project opts db parent path ext
                       = Raise (InvalidExternalVersionError
                                  project version_slug ext))
                   \/ ((Str.truthy_opt ext = false \/ ext = version_slug)
                       /\ ((find_version db project (manager_of ext)
                                         version_slug = None
                            /\ _match_multiversion_project
                                 opts db parent path ext
                               = Raise (VersionNotFoundError
                                          project version_slug file))
                           \/ exists version,
                                find_version db project (manager_of ext)
                                             version_slug = Some version
                                /\ _match_multiversion_project
                                     opts db parent path ext
                                   = Return (Some (project, version, file))))).
Proof.
  unfold _match_multiversion_project.
  destruct (Re.match_ (multiversion_pattern opts) path) as [m|] eqn:Hm;
    [right|left; split; reflexivity].
  destruct (Re.group m "language") as [language|] eqn:Hl;
    [|now apply multiversion_language_present in Hm].
  exists m, language. split; [reflexivity|]. split; [exact Hl|].
  cbv zeta.
  assert (Hgate : forall project : Project.t,
    (Str.truthy_opt ext = true
     /\ ext <> Re.group m "version"
     /\ Str.truthy_opt ext && negb (Str.eqb_opt ext (Re.group m "version"))
        = true)
    \/ ((Str.truthy_opt ext = false \/ ext = Re.group m "version")
        /\ Str.truthy_opt ext && negb (Str.eqb_opt ext (Re.group m "version"))
           = false)).
  { intros _. destruct (Str.truthy_opt ext) eqn:Ht; [|right; auto].
    destruct ext as [e|]; [|discriminate].
    destruct (Re.group m "version") as [v|]; simpl.
    - destruct (String.eqb e v) eqn:E.
      + apply String.eqb_eq in E. subst. right. auto.
      + apply String.eqb_neq in E. left. repeat split; congruence.
    - left. repeat split; congruence. }
  assert (Hrest : forall project,
    (Project.language parent = language /\ project = parent)
    \/ (Project.language parent <> language
        /\ find_translation db parent language = Some project) ->
    forall body,
      body = (if Str.truthy_opt ext
                 && negb (Str.eqb_opt ext (Re.group m "version"))
              then Raise (InvalidExternalVersionError
                            project (Re.group m "version") ext)
              else
                match find_version db project (manager_of ext)
                                   (Re.group m "version") with
                | Some version =>
                    Return (Some (project, version,
                                  _normalize_filename (Re.group m "file")))
                | None =>
                    Raise (VersionNotFoundError
                             project (Re.group m "version")
                             (_normalize_filename (Re.group m "file")))
                end) ->
      exists project0,
        ((Project.language parent = language /\ project0 = parent)
         \/ (Project.language parent <> language
             /\ find_translation db parent language = Some project0))
        /\ ((Str.truthy_opt ext = true
             /\ ext <> Re.group m "version"
             /\ body = Raise (InvalidExternalVersionError
                                project0 (Re.group m "version") ext))
            \/ ((Str.truthy_opt ext = false \/ ext = Re.group m "version")
                /\ ((find_version db project0 (manager_of ext)
                                  (Re.group m "version") = None
                     /\ body = Raise (VersionNotFoundError
                                        project0 (Re.group m "version")
                                        (_normalize_filename
                                           (Re.group m "file"))))
                    \/ exists version,
                         find_version db project0 (manager_of ext)
                                      (Re.group m "version") = Some version
                         /\ body = Return
                                     (Some (project0, version,
                                            _normalize_filename
                                              (Re.group m "file"))))))).
  { intros project Htarget body ->. exists project.
    split; [exact Htarget|].
    destruct (Hgate project) as [(Ht & Hne & Hg)|[Hok Hg]]; rewrite Hg.
    - left. auto.
    - right. split; [exact Hok|].
      destruct (find_version db project _ _) as [version|];
        [right; exists version|left]; auto. }
  destruct (String.eqb (Project.language parent) language) eqn:Heq.
  - apply String.eqb_eq in Heq. right.
    apply (Hrest parent); [left; auto | reflexivity].
  - apply String.eqb_neq in Heq.
    destruct (find_translation db parent language) as [project|] eqn:Hf.
    + right. apply (Hrest project); [right; auto | reflexivity].
    + left. auto.
Qed.

(** The answers of [_match_single_version_project]: it never declines. *)
Lemma match_single_version_cases parent path ext :
  let version_slug :=
    if Str.truthy_opt ext then ext
    else Some (Project.default_version parent) in
  let file := _normalize_filename (Some path) in
  (find_version db parent (manager_of ext) version_slug = None
   /\ _match_single_version_project db parent path ext
      = Raise (VersionNotFoundError parent version_slug file))
  \/ exists version,
       find_version db parent (manager_of ext) version_slug = Some version
       /\ _match_single_version_project db parent path ext
          = Return (Some (parent, version, file)).
Proof.
  unfold _match_single_version_project.
  destruct (Str.truthy_opt ext); cbv zeta;
    destruct (find_version db parent _ _) as [version|]; eauto.
Qed.

(** One call without the subproject strategy. *)
Lemma resolve_alone parent path ext :
  resolve 1 parent path false ext
  = if Project.single_version parent
    then r <- _match_single_version_project db parent path ext ;;
         match r with
         | Some r => Return r
         | None => Raise (InvalidPathForVersionedProjectError
                            parent (_normalize_filename (Some path)))
         end
    else r <- _match_multiversion_project opts db parent path ext ;;
         match r with
         | Some r => Return r
         | None => Raise (InvalidPathForVersionedProjectError
                            parent (_normalize_filename (Some path)))
         end.
Proof.
  rewrite resolve_eq. destruct (Project.single_version parent); cbn [negb bind].
  - reflexivity.
  - destruct (_match_multiversion_project opts db parent path ext)
      as [[r|]| |]; reflexivity.
Qed.

(** A call with the subproject strategy either hands the rest of the
    path to a subproject, or answers as the call without it. *)
Lemma resolve_with_subprojects fuel parent path ext :
  (exists m alias rel,
      (Project.single_version parent = true
       \/ _match_multiversion_project opts db parent path ext = Return None)
      /\ Re.match_ (subproject_pattern opts) path = Some m
      /\ Re.group m "project" = Some alias
      /\ find_subproject db parent alias = Some rel
      /\ resolve (S fuel) parent path true ext
         = resolve fuel (ProjectRelationship.child rel)
                   (_normalize_filename (Re.group m "file")) false ext)
  \/ resolve (S fuel) parent path true ext = resolve 1 parent path false ext.
Proof.
  rewrite (resolve_eq opts db fuel), resolve_alone.
  assert (Hsub :
    (exists m alias rel,
        Re.match_ (subproject_pattern opts) path = Some m
        /\ Re.group m "project" = Some alias
        /\ find_subproject db parent alias = Some rel
        /\ forall tail,
             (response <- _match_subproject opts db (resolve fuel)
                                            parent path ext ;;
              match response with Some r => Return r | None => tail end)
             = resolve fuel (ProjectRelationship.child rel)
                       (_normalize_filename (Re.group m "file")) false ext)
    \/ _match_subproject opts db (resolve fuel) parent path ext
       = Return None).
  { unfold _match_subproject.
    destruct (Re.match_ (subproject_pattern opts) path) as [m|] eqn:Hm;
      [|right; reflexivity].
    destruct (Re.group m "project") as [alias|] eqn:Ha;
      [|right; reflexivity].
    destruct (find_subproject db parent alias) as [rel|] eqn:Hr;
      [|right; reflexivity].
    left. exists m, alias, rel.
    split; [reflexivity|]. split; [exact Ha|]. split; [exact Hr|].
    intros tail.
    destruct (resolve fuel _ _ false ext); reflexivity. }
  destruct (Project.single_version parent) eqn:Hsv; cbn [negb bind].
  - destruct Hsub as [(m & alias & rel & Hm & Ha & Hr & Heq)|Hnone].
    + left. exists m, alias, rel. rewrite Heq. auto 6.
    + right. now rewrite Hnone.
  - destruct (_match_multiversion_project opts db parent path ext)
      as [[r|]| |] eqn:Hmv; cbn [bind]; try (right; reflexivity).
    destruct Hsub as [(m & alias & rel & Hm & Ha & Hr & Heq)|Hnone].
    + left. exists m, alias, rel. rewrite Heq. auto 6.
    + right. now rewrite Hnone.
Qed.

End MatcherFacts.

(** ** Invariants of the path resolver *)

Section ResolverFacts.

Variable opts : PatternOpts.
Variable db : Database.

Local Notation "'resolve'" := (_unresolve_path_with_parent_project opts db).
Local Notation "'manager_of' ext" :=
  (if Str.truthy_opt ext then EXTERNAL else INTERNAL) (at level 10).

(** Every outcome other than [OutOfFuel] is the outcome of one call
    without the subproject strategy, on the parent or on one of its
    subprojects. *)
Lemma resolve_reduce fuel parent path check_subprojects ext o :
  resolve fuel parent path check_subprojects ext = o ->
  o = OutOfFuel
  \/ resolve 1 parent path false ext = o
  \/ (check_subprojects = true
      /\ exists m alias rel,
           (Project.single_version parent = true
            \/ _match_multiversion_project opts db parent path ext
               = Return None)
           /\ Re.match_ (subproject_pattern opts) path = Some m
           /\ Re.group m "project" = Some alias
           /\ find_subproject db parent alias = Some rel
           /\ resolve 1 (ProjectRelationship.child rel)
                      (_normalize_filename (Re.group m "file")) false ext
              = o).
Proof.
  intros <-. destruct fuel as [|fuel]; [left; reflexivity|].
  destruct check_subprojects; [|right; left; symmetry; apply depth_one].
  destruct (resolve_with_subprojects opts db fuel parent path ext)
    as [(m & alias & rel & Hmv & Hm & Ha & Hr & Heq)|Heq]; rewrite Heq.
  - destruct fuel as [|fuel]; [left; reflexivity|].
    right; right. split; [reflexivity|]. exists m, alias, rel.
    rewrite (depth_one opts db fuel). auto 6.
  - right; left. reflexivity.
Qed.

Lemma find_version_some project manager version_slug version :
  find_version db project manager version_slug = Some version ->
  In version (versions db project manager)
  /\ version_slug = Some (Version.slug version).
Proof.
  unfold find_version. destruct version_slug as [s|]; [|discriminate].
  intros H. apply find_some in H as [Hin Hs].
  apply String.eqb_eq in Hs. now subst.
Qed.

Lemma find_translation_some parent language project :
  find_translation db parent language = Some project ->
  In project (translations db parent) /\ Project.language project = language.
Proof.
  unfold find_translation. intros H. apply find_some in H as [Hin Hs].
  now apply String.eqb_eq in Hs.
Qed.

Lemma find_subproject_some parent alias rel :
  find_subproject db parent alias = Some rel ->
  In rel (subprojects db parent) /\ ProjectRelationship.alias rel = alias.
Proof.
  unfold find_subproject. intros H. apply find_some in H as [Hin Hs].
  now apply String.eqb_eq in Hs.
Qed.

(** What one call without the subproject strategy returns. *)
Lemma resolve_alone_returns parent path ext p v f :
  resolve 1 parent path false ext = Return (p, v, f) ->
  (p = parent \/ In p (translations db parent))
  /\ In v (versions db p (manager_of ext))
  /\ (Str.truthy_opt ext = true -> ext = Some (Version.slug v))
  /\ Str.startswith "/" f = true.
Proof.
  rewrite resolve_alone.
  destruct (Project.single_version parent).
  - destruct (match_single_version_cases db parent path ext)
      as [[_ H]|(version & Hv & H)]; rewrite H; cbn [bind];
      [discriminate|].
    intros E; inversion E; subst.
    apply find_version_some in Hv as [Hin Hslug].
    split; [now left|]. split; [exact Hin|]. split.
    + intros Ht. now rewrite Ht in Hslug.
    + apply NormalFacts.normalize_filename_slash.
  - destruct (match_multiversion_cases opts db parent path ext)
      as [[_ H]|(m & language & Hm & Hl & Hcase)];
      [rewrite H; discriminate|].
    cbv zeta in Hcase.
    destruct Hcase as [(_ & _ & H)|(project & Htarget & Hcase)];
      [rewrite H; discriminate|].
    destruct Hcase as [(_ & _ & H)|(Hok & Hcase)];
      [rewrite H; discriminate|].
    destruct Hcase as [[_ H]|(version & Hv & H)];
      rewrite H; cbn [bind]; [discriminate|].
    intros E; inversion E; subst.
    apply find_version_some in Hv as [Hin Hslug].
    split.
    { destruct Htarget as [[_ ->]|[_ Hf]]; [now left|].
      right. now apply find_translation_some in Hf. }
    split; [exact Hin|]. split.
    + intros Ht. destruct Hok as [Hf| ->]; congruence.
    + apply NormalFacts.normalize_filename_slash.
Qed.

(** What one call without the subproject strategy raises. *)
Lemma resolve_alone_raises parent path ext e :
  resolve 1 parent path false ext = Raise e ->
  match e with
  | TranslationNotFoundError p language f =>
      Project.single_version p = false
      /\ Project.language p <> language
      /\ find_translation db p language = None
      /\ Str.startswith "/" f = true
  | VersionNotFoundError p version_slug f =>
      find_version db p (manager_of ext) version_slug = None
      /\ Str.startswith "/" f = true
  | InvalidExternalVersionError p version_slug e' =>
      e' = ext /\ Str.truthy_opt ext = true /\ version_slug <> ext
  | InvalidPathForVersionedProjectError p path' =>
      Project.single_version p = false
      /\ Str.startswith "/" path' = true
  | _ => False
  end.
Proof.
  rewrite resolve_alone.
  destruct (Project.single_version parent) eqn:Hsv.
  - destruct (match_single_version_cases db parent path ext)
      as [[Hv H]|(version & Hv & H)]; rewrite H; cbn [bind];
      [|discriminate].
    intros E; inversion E; subst.
    split; [exact Hv | apply NormalFacts.normalize_filename_slash].
  - destruct (match_multiversion_cases opts db parent path ext)
      as [[_ H]|(m & language & Hm & Hl & Hcase)].
    { rewrite H. cbn [bind]. intros E; inversion E; subst.
      split; [exact Hsv | apply NormalFacts.normalize_filename_slash]. }
    cbv zeta in Hcase.
    destruct Hcase as [(Hne & Hnone & H)|(project & Htarget & Hcase)].
    { rewrite H. cbn [bind]. intros E; inversion E; subst.
      repeat split; try assumption.
      apply NormalFacts.normalize_filename_slash. }
    destruct Hcase as [(Ht & Hne & H)|(Hok & Hcase)].
    { rewrite H. cbn [bind]. intros E; inversion E; subst.
      repeat split; congruence. }
    destruct Hcase as [[Hv H]|(version & Hv & H)];
      rewrite H; cbn [bind]; [|discriminate].
    intros E; inversion E; subst.
    split; [exact Hv | apply NormalFacts.normalize_filename_slash].
Qed.

End ResolverFacts.

(** X3.  Whatever the path resolver returns, the version is a version of
    the project it returns, taken from the external manager when a
    non-empty external version slug was supplied and from the internal
    one otherwise; with such a slug the version returned has that slug;
    and the file name starts with [/]. *)
Theorem resolved_version_belongs
        opts db fuel parent path check_subprojects ext p v f :
  _unresolve_path_with_parent_project
    opts db fuel parent path check_subprojects ext = Return (p, v, f) ->
  In v (versions db p (if Str.truthy_opt ext then EXTERNAL else INTERNAL))
  /\ (Str.truthy_opt ext = true -> ext = Some (Version.slug v))
  /\ Str.startswith "/" f = true.
Proof.
  intros H. apply resolve_reduce in H as [H|[H|(_ & m & a & rel & H)]].
  - discriminate.
  - now apply resolve_alone_returns in H.
  - destruct H as (_ & _ & _ & _ & H).
    now apply resolve_alone_returns in H.
Qed.

Lemma resolved_version_belongs_witness :
  In (Sample.pr42 31) (versions Sample.db Sample.sub EXTERNAL)
  /\ (true = true -> Some "pr-42" = Some (Version.slug (Sample.pr42 31)))
  /\ Str.startswith "/" "/api/" = true.
Proof.
  exact (@resolved_version_belongs
           Sample.pattern_opts Sample.db 2 Sample.pip
           "/projects/sub/en/pr-42/api/" true (Some "pr-42")
           Sample.sub (Sample.pr42 31) "/api/" eq_refl).
Defined.

(** X4.  The project the path resolver returns is the parent project,
    one of its translations, or - only when subprojects are checked - the
    child of one of the parent's subproject relationships or a
    translation of that child.  Nothing further away is ever reached. *)
Theorem resolved_project_is_near
        opts db fuel parent path check_subprojects ext p v f :
  _unresolve_path_with_parent_project
    opts db fuel parent path check_subprojects ext = Return (p, v, f) ->
  p = parent
  \/ In p (translations db parent)
  \/ (check_subprojects = true
      /\ exists rel,
           In rel (subprojects db parent)
           /\ (p = ProjectRelationship.child rel
               \/ In p (translations db (ProjectRelationship.child rel)))).
Proof.
  intros H. apply resolve_reduce in H as [H|[H|(Hcs & m & a & rel & H)]].
  - discriminate.
  - apply resolve_alone_returns in H as [[->|H] _]; auto.
  - destruct H as (_ & _ & _ & Hrel & H).
    apply find_subproject_some in Hrel as [Hin _].
    apply resolve_alone_returns in H as [H _].
    right; right. split; [exact Hcs|]. exists rel. auto.
Qed.

Lemma resolved_project_is_near_witness :
  Sample.pip_es = Sample.pip
  \/ In Sample.pip_es (translations Sample.db Sample.pip)
  \/ (false = true
      /\ exists rel,
           In rel (subprojects Sample.db Sample.pip)
           /\ (Sample.pip_es = ProjectRelationship.child rel
               \/ In Sample.pip_es
                     (translations Sample.db (ProjectRelationship.child rel)))).
Proof.
  exact (@resolved_project_is_near
           Sample.pattern_opts Sample.db 1 Sample.pip
           "/es/latest/install.html" false None
           Sample.pip_es (Sample.latest 20) "/install.html" eq_refl).
Defined.

(** X5.  The path resolver raises four kinds of error only, each under
    its own condition: [TranslationNotFoundError] for a multiversion
    project that neither has the language nor a translation in it;
    [VersionNotFoundError] when the manager in use has no version with
    the slug carried; [InvalidExternalVersionError] only with a non-empty
    external slug that differs from the path's version; and
    [InvalidPathForVersionedProjectError] only for a project that is not
    single-version.  File names and paths carried start with [/]. *)
Theorem resolver_errors
        opts db fuel parent path check_subprojects ext e :
  _unresolve_path_with_parent_project
    opts db fuel parent path check_subprojects ext = Raise e ->
  match e with
  | TranslationNotFoundError p language f =>
      Project.single_version p = false
      /\ Project.language p <> language
      /\ find_translation db p language = None
      /\ Str.startswith "/" f = true
  | VersionNotFoundError p version_slug f =>
      find_version db p (if Str.truthy_opt ext then EXTERNAL else INTERNAL)
                   version_slug = None
      /\ Str.startswith "/" f = true
  | InvalidExternalVersionError p version_slug e' =>
      e' = ext /\ Str.truthy_opt ext = true /\ version_slug <> ext
  | InvalidPathForVersionedProjectError p path' =>
      Project.single_version p = false
      /\ Str.startswith "/" path' = true
  | _ => False
  end.
Proof.
  intros H. apply resolve_reduce in H as [H|[H|(_ & m & a & rel & H)]].
  - discriminate.
  - now apply resolve_alone_raises in H.
  - destruct H as (_ & _ & _ & _ & H).
    now apply resolve_alone_raises in H.
Qed.

Lemma resolver_errors_witness :
  Project.single_version Sample.sub = false
  /\ Str.startswith "/" "/nothing/here/at/all" = true.
Proof.
  exact (@resolver_errors
           Sample.pattern_opts Sample.db 2 Sample.pip
           "/projects/sub/nothing/here/at/all" true None
           (InvalidPathForVersionedProjectError
              Sample.sub "/nothing/here/at/all") eq_refl).
Defined.

(** ** The three strategies *)

(** X6.  A single-version project takes any path as a file: unless the
    path enters one of its subprojects, the resolver returns the project
    itself, the default version from the internal manager (or, with a
    non-empty external slug, that version from the external manager) and
    the normalised path, or raises [VersionNotFoundError] for that slug.
    The multiversion pattern plays no part. *)
Theorem single_version_resolution
        opts db fuel parent path check_subprojects ext :
  Project.single_version parent = true ->
  check_subprojects = false
  \/ (forall m alias,
         Re.match_ (subproject_pattern opts) path = Some m ->
         Re.group m "project" = Some alias ->
         find_subproject db parent alias = None) ->
  let version_slug :=
    if Str.truthy_opt ext then ext
    else Some (Project.default_version parent) in
  let manager := if Str.truthy_opt ext then EXTERNAL else INTERNAL in
  _unresolve_path_with_parent_project
    opts db (S fuel) parent path check_subprojects ext
  = match find_version db parent manager version_slug with
    | Some version =>
        Return (parent, version, _normalize_filename (Some path))
    | None =>
        Raise (VersionNotFoundError
                 parent version_slug (_normalize_filename (Some path)))
    end.
Proof.
  intros Hsv Hsub version_slug manager.
  assert (Halone :
    _unresolve_path_with_parent_project opts db 1 parent path false ext
    = match find_version db parent manager version_slug with
      | Some version =>
          Return (parent, version, _normalize_filename (Some path))
      | None =>
          Raise (VersionNotFoundError
                   parent version_slug (_normalize_filename (Some path)))
      end).
  { rewrite resolve_alone, Hsv.
    destruct (match_single_version_cases db parent path ext)
      as [[Hv H]|(version & Hv & H)]; rewrite H; cbn [bind];
      subst version_slug manager; now rewrite Hv. }
  destruct check_subprojects; [|now rewrite depth_one].
  destruct (resolve_with_subprojects opts db fuel parent path ext)
    as [(m & alias & rel & _ & Hm & Ha & Hr & _)|Heq].
  - destruct Hsub as [Hcs|Hnone]; [discriminate|].
    rewrite (Hnone m alias Hm Ha) in Hr. discriminate.
  - now rewrite Heq.
Qed.

Lemma single_version_resolution_witness :
  _unresolve_path_with_parent_project
    Sample.pattern_opts Sample.db 1 Sample.manual "/en/latest/guide.html"
    true None
  = Return (Sample.manual, Sample.latest 50, "/en/latest/guide.html").
Proof.
  refine (@single_version_resolution
            Sample.pattern_opts Sample.db 0 Sample.manual
            "/en/latest/guide.html" true None eq_refl _).
  right. intros m alias Hm. vm_compute in Hm. discriminate.
Defined.

(** X7.  A path [/projects/<alias>/<file>] that the multiversion
    strategy does not take is resolved against the subproject with that
    alias: the outcome is that of resolving the normalised [file] against
    the child project without the subproject strategy.  When the parent
    has no subproject with the alias the outcome is that of resolving the
    whole path against the parent without the subproject strategy. *)
Theorem subproject_path_composes opts db fuel parent path ext m alias :
  2 <= fuel ->
  Project.single_version parent = true
  \/ Re.match_ (multiversion_pattern opts) path = None ->
  Re.match_ (subproject_pattern opts) path = Some m ->
  Re.group m "project" = Some alias ->
  _unresolve_path_with_parent_project opts db fuel parent path true ext
  = match find_subproject db parent alias with
    | Some rel =>
        _unresolve_path_with_parent_project
          opts db 1 (ProjectRelationship.child rel)
          (_normalize_filename (Re.group m "file")) false ext
    | None =>
        _unresolve_path_with_parent_project opts db 1 parent path false ext
    end.
Proof.
  intros Hfuel Hmv Hm Ha. rewrite enough_fuel by exact Hfuel.
  assert (Hnone :
    (if negb (Project.single_version parent)
     then _match_multiversion_project opts db parent path ext
     else Return None) = Return None).
  { destruct Hmv as [Hsv|Hno]; [now rewrite Hsv|].
    destruct (negb _); [|reflexivity].
    unfold _match_multiversion_project. now rewrite Hno. }
  rewrite (resolve_eq opts db 1 parent path true ext), Hnone. cbn [bind].
  unfold _match_subproject. rewrite Hm, Ha.
  destruct (find_subproject db parent alias) as [rel|].
  - destruct (_unresolve_path_with_parent_project
                opts db 1 (ProjectRelationship.child rel) _ false ext);
      reflexivity.
  - cbn [bind].
    now rewrite (resolve_eq opts db 0 parent path false ext), Hnone.
Qed.

Lemma subproject_path_composes_witness :
  _unresolve_path_with_parent_project
    Sample.pattern_opts Sample.db 3 Sample.pip
    "/projects/sub/en/latest/" true None
  = _unresolve_path_with_parent_project
      Sample.pattern_opts Sample.db 1 Sample.sub "/en/latest/" false None.
Proof.
  refine (@subproject_path_composes
            Sample.pattern_opts Sample.db 3 Sample.pip
            "/projects/sub/en/latest/" None
            [("file", "en/latest/"); ("project", "sub")] "sub" _ _ _ _);
    try reflexivity; try lia.
  right. reflexivity.
Defined.

(** X8.  The path resolver reads the translations and the versions of
    projects and, only when subprojects are checked, the subproject
    relationships: two databases that agree on those give the same
    outcome, whatever their project and domain tables and feature flags
    are. *)
Theorem resolver_reads_relations_only
        opts db db' fuel parent path check_subprojects ext :
  (forall p, translations db p = translations db' p) ->
  (forall p manager, versions db p manager = versions db' p manager) ->
  (check_subprojects = true ->
   forall p, subprojects db p = subprojects db' p) ->
  _unresolve_path_with_parent_project
    opts db fuel parent path check_subprojects ext
  = _unresolve_path_with_parent_project
      opts db' fuel parent path check_subprojects ext.
Proof.
  intros Ht Hv. revert parent path check_subprojects.
  assert (Hfv : forall p manager s,
             find_version db p manager s = find_version db' p manager s).
  { intros p manager s. unfold find_version. now rewrite Hv. }
  assert (Hmv : forall parent path,
             _match_multiversion_project opts db parent path ext
             = _match_multiversion_project opts db' parent path ext).
  { intros parent path. unfold _match_multiversion_project, find_translation.
    rewrite Ht.
    destruct (Re.match_ _ path) as [m|]; [|reflexivity].
    destruct (Re.group m "language") as [language|]; [|reflexivity].
    destruct (String.eqb _ language); cbn [bind].
    - now rewrite Hfv.
    - destruct (find _ (translations db' parent)); cbn [bind];
        [now rewrite Hfv | reflexivity]. }
  assert (Hsv : forall parent path,
             _match_single_version_project db parent path ext
             = _match_single_version_project db' parent path ext).
  { intros parent path. unfold _match_single_version_project.
    destruct (Str.truthy_opt ext); now rewrite Hfv. }
  induction fuel as [|fuel IH]; intros parent path cs Hs; [reflexivity|].
  rewrite !resolve_eq, Hmv, Hsv.
  destruct cs; [|reflexivity].
  assert (Hsub :
    _match_subproject
      opts db (_unresolve_path_with_parent_project opts db fuel)
      parent path ext
    = _match_subproject
        opts db' (_unresolve_path_with_parent_project opts db' fuel)
        parent path ext).
  { unfold _match_subproject, find_subproject. rewrite (Hs eq_refl).
    destruct (Re.match_ _ path) as [m|]; [|reflexivity].
    destruct (Re.group m "project") as [a|]; [|reflexivity].
    destruct (find _ (subprojects db' parent)) as [rel|]; [|reflexivity].
    rewrite IH; [reflexivity | discriminate]. }
  now rewrite Hsub.
Qed.

Lemma resolver_reads_relations_only_witness :
  let db' :=
    {| Project_objects := [];
       Domain_objects := [];
       translations := translations Sample.db;
       subprojects := fun _ => [];
       versions := versions Sample.db;
       features := fun _ => [] |} in
  _unresolve_path_with_parent_project
    Sample.pattern_opts db' 1 Sample.pip "/es/latest/" false None
  = Return (Sample.pip_es, Sample.latest 20, "/").
Proof.
  intros db'.
  rewrite <- (@resolver_reads_relations_only
                Sample.pattern_opts Sample.db db' 1 Sample.pip
                "/es/latest/" false None);
    [reflexivity | reflexivity | reflexivity | discriminate].
Defined.

(** X9.  Both patterns are anchored at a leading [/]: a path that does
    not start with [/] (the empty path included) matches neither, so a
    multiversion project answers it with
    [InvalidPathForVersionedProjectError] carrying the path with a [/]
    put in front, whatever the pattern table and the database. *)
Theorem path_without_leading_slash
        opts db fuel parent path check_subprojects ext :
  Str.startswith "/" path = false ->
  Re.match_ (multiversion_pattern opts) path = None
  /\ Re.match_ (subproject_pattern opts) path = None
  /\ (Project.single_version parent = false ->
      _unresolve_path_with_parent_project
        opts db (S fuel) parent path check_subprojects ext
      = Raise (InvalidPathForVersionedProjectError
                 parent (_normalize_filename (Some path)))).
Proof.
  intros Hno.
  assert (Hmv : Re.match_ (multiversion_pattern opts) path = None).
  { unfold Re.match_, multiversion_pattern. cbn [Re.seq Re.run].
    cbn [Re.pos Re.rest Nat.eqb].
    destruct path as [|a t]; [reflexivity|].
    cbn [Str.startswith] in Hno. rewrite andb_true_r in Hno.
    rewrite Ascii.eqb_sym in Hno. now rewrite Hno. }
  assert (Hsp : Re.match_ (subproject_pattern opts) path = None).
  { unfold Re.match_, subproject_pattern. cbn [Re.seq Re.run Re.word].
    cbn [Re.pos Re.rest Nat.eqb].
    destruct path as [|a t]; [reflexivity|].
    cbn [Str.startswith] in Hno. rewrite andb_true_r in Hno.
    rewrite Ascii.eqb_sym in Hno. now rewrite Hno. }
  split; [exact Hmv|]. split; [exact Hsp|].
  intros Hsv. rewrite resolve_eq, Hsv. cbn [negb].
  unfold _match_multiversion_project, _match_subproject.
  rewrite Hmv, Hsp. cbn [bind].
  destruct check_subprojects; reflexivity.
Qed.

Lemma path_without_leading_slash_witness :
  _unresolve_path_with_parent_project
    Sample.pattern_opts Sample.db 1 Sample.pip "" true None
  = Raise (InvalidPathForVersionedProjectError Sample.pip "/")
  /\ _unresolve_path_with_parent_project
       Sample.pattern_opts Sample.db 1 Sample.pip "en/latest/" true None
     = Raise (InvalidPathForVersionedProjectError Sample.pip "/en/latest/").
Proof.
  split.
  - exact (proj2 (proj2 (@path_without_leading_slash
      Sample.pattern_opts Sample.db 0 Sample.pip "" true None eq_refl))
      eq_refl).
  - exact (proj2 (proj2 (@path_without_leading_slash
      Sample.pattern_opts Sample.db 0 Sample.pip "en/latest/" true None
      eq_refl)) eq_refl).
Defined.

(** X10.  A path with a language and no version segment ([/en], [/en/])
    matches the multiversion pattern and never resolves: the version
    lookup is made with no slug and finds nothing, so the outcome is an
    error, [VersionNotFoundError] with no version slug when the language
    resolves and no external slug is in force. *)
Theorem language_only_path
        opts db fuel parent path check_subprojects ext m :
  Project.single_version parent = false ->
  Re.match_ (multiversion_pattern opts) path = Some m ->
  Re.group m "version" = None ->
  let result :=
    _unresolve_path_with_parent_project
      opts db (S fuel) parent path check_subprojects ext in
  (forall r, result <> Return r)
  /\ result <> OutOfFuel
  /\ (forall language project,
         Re.group m "language" = Some language ->
         (Project.language parent = language /\ project = parent)
         \/ (Project.language parent <> language
             /\ find_translation db parent language = Some project) ->
         Str.truthy_opt ext = false ->
         result = Raise (VersionNotFoundError
                           project None
                           (_normalize_filename (Re.group m "file")))).
Proof.
  intros Hsv Hm Hv result. subst result.
  rewrite resolve_eq, Hsv. cbn [negb].
  destruct (match_multiversion_cases opts db parent path ext)
    as [[Hno _]|(m' & language & Hm' & Hl & Hcase)]; [congruence|].
  rewrite Hm in Hm'. inversion Hm'; subst m'. clear Hm'.
  cbv zeta in Hcase. rewrite Hv in Hcase.
  destruct Hcase as [(Hne & Hnone & H)|(project & Htarget & Hcase)].
  { rewrite H. cbn [bind].
    split; [discriminate|]. split; [discriminate|].
    intros language' project' Hl' Htarget' _.
    rewrite Hl in Hl'. inversion Hl'; subst language'.
    destruct Htarget' as [[Heq _]|[_ Hf]];
      [now elim Hne | rewrite Hnone in Hf; discriminate]. }
  destruct Hcase as [(Ht & _ & H)|(_ & [[_ H]|(version & Hfv & _)])];
    try discriminate; rewrite H; cbn [bind].
  - split; [discriminate|]. split; [discriminate|].
    intros language' project' _ _ Hf. congruence.
  - split; [discriminate|]. split; [discriminate|].
    intros language' project' Hl' Htarget' _.
    rewrite Hl in Hl'. inversion Hl'; subst language'.
    assert (project' = project) as ->; [|reflexivity].
    destruct Htarget as [[Heq ->]|[Hne Hf]];
      destruct Htarget' as [[Heq' ->]|[Hne' Hf']]; congruence.
Qed.

Lemma language_only_path_witness :
  _unresolve_path_with_parent_project
    Sample.pattern_opts Sample.db 1 Sample.pip "/es/" true None
  = Raise (VersionNotFoundError Sample.pip_es None "/").
Proof.
  refine (proj2 (proj2 (@language_only_path
    Sample.pattern_opts Sample.db 0 Sample.pip "/es/" true None
    [("language", "es")] eq_refl eq_refl eq_refl))
    "es" Sample.pip_es eq_refl _ eq_refl).
  right. split; [discriminate | reflexivity].
Defined.

(** X11.  A path that matches the multiversion pattern resolves, for a
    project that is not single-version, to the project of the path's
    language (the parent or its first translation in that language), the
    version with the path's slug in the manager in use, and the path's
    file with a leading [/], provided an external slug in force is the
    path's version slug. *)
Theorem multiversion_resolves
        opts db fuel parent path check_subprojects ext
        m language project version :
  Project.single_version parent = false ->
  Re.match_ (multiversion_pattern opts) path = Some m ->
  Re.group m "language" = Some language ->
  (Project.language parent = language /\ project = parent)
  \/ (Project.language parent <> language
      /\ find_translation db parent language = Some project) ->
  Str.truthy_opt ext = false \/ ext = Re.group m "version" ->
  find_version db project (if Str.truthy_opt ext then EXTERNAL else INTERNAL)
               (Re.group m "version") = Some version ->
  _unresolve_path_with_parent_project
    opts db (S fuel) parent path check_subprojects ext
  = Return (project, version, _normalize_filename (Re.group m "file")).
Proof.
  intros Hsv Hm Hl Htarget Hok Hfv.
  rewrite resolve_eq, Hsv. cbn [negb].
  destruct (match_multiversion_cases opts db parent path ext)
    as [[Hno _]|(m' & language' & Hm' & Hl' & Hcase)]; [congruence|].
  rewrite Hm in Hm'. inversion Hm'; subst m'. clear Hm'.
  rewrite Hl in Hl'. inversion Hl'; subst language'. clear Hl'.
  cbv zeta in Hcase.
  assert (Hsame : forall project',
    (Project.language parent = language /\ project' = parent)
    \/ (Project.language parent <> language
        /\ find_translation db parent language = Some project') ->
    project' = project).
  { intros project' [[Heq' ->]|[Hne' Hf']];
      destruct Htarget as [[Heq ->]|[Hne Hf]]; congruence. }
  destruct Hcase as [(Hne & Hnone & _)|(project' & Htarget' & Hcase)].
  { destruct Htarget as [[Heq _]|[_ Hf]]; congruence. }
  apply Hsame in Htarget'. subst project'.
  destruct Hcase as [(Ht & Hdiff & _)|(_ & [[Hnone _]|(version' & Hfv' & H)])].
  - destruct Hok; congruence.
  - rewrite Hfv in Hnone. discriminate.
  - rewrite H. cbn [bind]. rewrite Hfv in Hfv'. now inversion Hfv'.
Qed.

Lemma multiversion_resolves_witness :
  _unresolve_path_with_parent_project
    Sample.pattern_opts Sample.db 1 Sample.pip "/es/pr-42/api/index.html"
    true (Some "pr-42")
  = Return (Sample.pip_es, Sample.pr42 21, "/api/index.html").
Proof.
  refine (@multiversion_resolves
    Sample.pattern_opts Sample.db 0 Sample.pip "/es/pr-42/api/index.html"
    true (Some "pr-42")
    [("file", "api/index.html"); ("version", "pr-42"); ("language", "es")]
    "es" Sample.pip_es (Sample.pr42 21) eq_refl eq_refl eq_refl _ _ eq_refl).
  - right. split; [discriminate | reflexivity].
  - right. reflexivity.
Defined.

(** X12.  The groups the matchers read without a test are part of every
    match, whatever the pattern table: [language] in a match of the
    multiversion pattern and [project] in a match of the subproject
    pattern. *)
Theorem mandatory_groups_present opts path m :
  (Re.match_ (multiversion_pattern opts) path = Some m ->
   exists language, Re.group m "language" = Some language)
  /\ (Re.match_ (subproject_pattern opts) path = Some m ->
      exists alias, Re.group m "project" = Some alias).
Proof.
  split; intros H.
  - apply multiversion_language_present in H.
    destruct (Re.group m "language") as [l|]; [eauto | congruence].
  - apply subproject_project_present in H.
    destruct (Re.group m "project") as [a|]; [eauto | congruence].
Qed.

Lemma mandatory_groups_present_witness :
  exists alias,
    Re.group [("file", "en/latest/"); ("project", "sub")] "project"
    = Some alias.
Proof.
  exact (proj2 (@mandatory_groups_present
                  Sample.pattern_opts "/projects/sub/en/latest/"
                  [("file", "en/latest/"); ("project", "sub")]) eq_refl).
Defined.

(** ** The domain classifier *)

Module SplitFacts.

Lemma rsplit_once_none_inv sep c sep' s :
  sep = String c sep' ->
  Str.rsplit_once sep s = None -> Str.contains sep s = false.
Proof.
  intros Hsep. induction s as [|a s IH]; intros H.
  - subst sep. reflexivity.
  - cbn [Str.rsplit_once] in H.
    destruct (Str.rsplit_once sep s) as [[l r]|]; [discriminate|].
    destruct (Str.startswith sep (String a s)) eqn:E; [discriminate|].
    rewrite StrFacts.contains_step, E, (IH eq_refl). reflexivity.
Qed.

(** The cut of [rsplit_once] is the last one: the separator does not
    occur in the part after it. *)
Lemma rsplit_once_tail_clean sep c sep' s l r :
  sep = String c sep' ->
  Str.rsplit_once sep s = Some (l, r) -> Str.contains sep r = false.
Proof.
  intros Hsep. revert l. induction s as [|a s IH]; intros l H;
    [discriminate|].
  cbn [Str.rsplit_once] in H.
  destruct (Str.rsplit_once sep s) as [[l' r']|] eqn:Hs.
  - inversion H; subst. now apply (IH l').
  - destruct (Str.startswith sep (String a s)) eqn:E; [|discriminate].
    inversion H; subst l r. clear H.
    apply (@rsplit_once_none_inv sep c sep' s Hsep) in Hs.
    destruct (Str.contains sep (Str.drop (String.length sep) (String a s)))
      eqn:Hc; [|reflexivity].
    rewrite Hsep in Hc, Hs. cbn [String.length Str.drop] in Hc.
    assert (Hsuffix : forall n t, exists x, t = (x ++ Str.drop n t)%string).
    { clear. induction n as [|n IH]; intros t.
      - exists "". destruct t; reflexivity.
      - destruct t as [|b t]; [exists ""; reflexivity|].
        destruct (IH t) as [x Hx]. exists (String b x).
        simpl. now rewrite <- Hx. }
    destruct (Hsuffix (String.length sep') s) as [x Hx].
    rewrite Hx in Hs.
    now rewrite (@StrFacts.contains_app_r _ x _ Hc) in Hs.
Qed.

End SplitFacts.

Section ClassifierFacts.

Variable settings : Settings.
Variable db : Database.

Local Notation "'public'" := (get_domain_from_host (PUBLIC_DOMAIN settings)).
Local Notation "'external_'" :=
  (get_domain_from_host (RTD_EXTERNAL_VERSION_DOMAIN settings)).

(** The classifier, branch by branch. *)
Lemma unresolve_domain_eq domain subdomain root :
  Str.split_once "." domain = (subdomain, root) ->
  let root_domain := match root with Some r => r | None => "" end in
  unresolve_domain settings db domain
  = if Str.contains public domain then
      if String.eqb public root_domain then
        project <- _resolve_project_slug db subdomain domain ;;
        Return
          {| UnresolvedDomain.source_domain := domain;
             UnresolvedDomain.source := DomainSourceType.public_domain;
             UnresolvedDomain.project := project;
             UnresolvedDomain.domain := None;
             UnresolvedDomain.external_version_slug := None |}
      else Raise (SuspiciousHostnameError domain)
    else if Str.contains external_ domain then
      if String.eqb external_ root_domain then
        match Str.rsplit_once "--" subdomain with
        | Some (project_slug, version_slug) =>
            project <- _resolve_project_slug db project_slug domain ;;
            Return
              {| UnresolvedDomain.source_domain := domain;
                 UnresolvedDomain.source := DomainSourceType.external_domain;
                 UnresolvedDomain.project := project;
                 UnresolvedDomain.domain := None;
                 UnresolvedDomain.external_version_slug :=
                   Some version_slug |}
        | None => Raise (InvalidExternalDomainError domain)
        end
      else Raise (SuspiciousHostnameError domain)
    else
      match find (fun d => String.eqb (Domain.domain d) domain)
                 (Domain_objects db) with
      | None => Raise (InvalidCustomDomainError domain)
      | Some domain_object =>
          Return
            {| UnresolvedDomain.source_domain := domain;
               UnresolvedDomain.source := DomainSourceType.custom_domain;
               UnresolvedDomain.project := Domain.project domain_object;
               UnresolvedDomain.domain := Some domain_object;
               UnresolvedDomain.external_version_slug := None |}
      end.
Proof. intros H. unfold unresolve_domain. now rewrite H. Qed.

Lemma resolve_project_slug_cases slug domain :
  (find (fun p => String.eqb (Project.slug p) slug) (Project_objects db)
   = None
   /\ (forall p, In p (Project_objects db) -> Project.slug p <> slug)
   /\ _resolve_project_slug db slug domain
      = Raise (InvalidSubdomainError domain))
  \/ exists project,
       In project (Project_objects db)
       /\ Project.slug project = slug
       /\ _resolve_project_slug db slug domain = Return project.
Proof.
  unfold _resolve_project_slug.
  destruct (find _ (Project_objects db)) as [p|] eqn:E.
  - right. exists p. apply find_some in E as [Hin Hs].
    apply String.eqb_eq in Hs. auto.
  - left. split; [reflexivity|]. split; [|reflexivity].
    intros p Hin. apply String.eqb_neq. exact (find_none _ _ E p Hin).
Qed.

End ClassifierFacts.

(** X13.  A domain whose root domain is exactly the public suffix is
    served from the public domain, whether or not it also contains the
    external suffix: the first label is the project slug, an unknown slug
    raises [InvalidSubdomainError], a known one gives
    [source=public_domain] with no [Domain] object and no external
    version slug. *)
Theorem public_domain_classification settings db domain subdomain root :
  let public_domain := get_domain_from_host (PUBLIC_DOMAIN settings) in
  let root_domain := match root with Some r => r | None => "" end in
  Str.split_once "." domain = (subdomain, root) ->
  root_domain = public_domain ->
  ((forall p, In p (Project_objects db) -> Project.slug p <> subdomain) ->
   unresolve_domain settings db domain = Raise (InvalidSubdomainError domain))
  /\ ((exists p, In p (Project_objects db) /\ Project.slug p = subdomain) ->
      exists project,
        In project (Project_objects db)
        /\ Project.slug project = subdomain
        /\ unresolve_domain settings db domain
           = Return
               {| UnresolvedDomain.source_domain := domain;
                  UnresolvedDomain.source := DomainSourceType.public_domain;
                  UnresolvedDomain.project := project;
                  UnresolvedDomain.domain := None;
                  UnresolvedDomain.external_version_slug := None |}).
Proof.
  intros public_domain root_domain Hsplit Hroot.
  rewrite (unresolve_domain_eq settings db domain Hsplit). cbv zeta.
  fold public_domain. fold root_domain.
  assert (Hin : Str.contains public_domain domain = true).
  { rewrite <- Hroot. exact (StrFacts.root_in_domain _ Hsplit). }
  rewrite Hin, <- Hroot, String.eqb_refl.
  destruct (resolve_project_slug_cases db subdomain domain)
    as [(_ & Hnone & H)|(project & Hp & Hs & H)]; rewrite H; cbn [bind].
  - split; [reflexivity|]. intros [p [Hp Hs]]. now apply Hnone in Hp.
  - split; [|eauto].
    intros Hnone. now apply Hnone in Hp.
Qed.

Lemma public_domain_classification_witness :
  unresolve_domain Sample.nested_settings Sample.db
                   "my-external-builds.readthedocs.io"
  = Return
      {| UnresolvedDomain.source_domain := "my-external-builds.readthedocs.io";
         UnresolvedDomain.source := DomainSourceType.public_domain;
         UnresolvedDomain.project := Sample.builds;
         UnresolvedDomain.domain := None;
         UnresolvedDomain.external_version_slug := None |}
  /\ unresolve_domain Sample.settings Sample.db "nobody.readthedocs.io"
     = Raise (InvalidSubdomainError "nobody.readthedocs.io").
Proof.
  split.
  - destruct (proj2 (@public_domain_classification
        Sample.nested_settings Sample.db "my-external-builds.readthedocs.io"
        "my-external-builds" (Some "readthedocs.io") eq_refl eq_refl))
      as (project & Hin & Hslug & Hres).
    { exists Sample.builds. split; [simpl; auto 8 | reflexivity]. }
    rewrite Hres. f_equal. f_equal.
    simpl in Hin.
    repeat (destruct Hin as [<-|Hin];
            [try reflexivity; vm_compute in Hslug; discriminate|]).
    destruct Hin.
  - refine (proj1 (@public_domain_classification
        Sample.settings Sample.db "nobody.readthedocs.io"
        "nobody" (Some "readthedocs.io") eq_refl eq_refl) _).
    intros p Hin. simpl in Hin.
    repeat (destruct Hin as [<-|Hin]; [discriminate|]).
    destruct Hin.
Defined.

(** X14.  A domain that contains neither suffix is looked up among the
    custom domains by its exact name: without a [Domain] of that name
    the classifier raises [InvalidCustomDomainError]; with one it returns
    [source=custom_domain], that [Domain] object and the project the
    object belongs to. *)
Theorem custom_domain_classification settings db domain :
  let public_domain := get_domain_from_host (PUBLIC_DOMAIN settings) in
  let external_domain :=
    get_domain_from_host (RTD_EXTERNAL_VERSION_DOMAIN settings) in
  Str.contains public_domain domain = false ->
  Str.contains external_domain domain = false ->
  ((forall d, In d (Domain_objects db) -> Domain.domain d <> domain) ->
   unresolve_domain settings db domain
   = Raise (InvalidCustomDomainError domain))
  /\ ((exists d, In d (Domain_objects db) /\ Domain.domain d = domain) ->
      exists domain_object,
        In domain_object (Domain_objects db)
        /\ Domain.domain domain_object = domain
        /\ unresolve_domain settings db domain
           = Return
               {| UnresolvedDomain.source_domain := domain;
                  UnresolvedDomain.source := DomainSourceType.custom_domain;
                  UnresolvedDomain.project := Domain.project domain_object;
                  UnresolvedDomain.domain := Some domain_object;
                  UnresolvedDomain.external_version_slug := None |}).
Proof.
  intros public_domain external_domain Hp He.
  destruct (Str.split_once "." domain) as [subdomain root] eqn:Hsplit.
  rewrite (unresolve_domain_eq settings db domain Hsplit). cbv zeta.
  fold public_domain. fold external_domain. rewrite Hp, He.
  split.
  - intros Hnone. rewrite find_absent; [reflexivity|].
    intros d Hd. apply String.eqb_neq. now apply Hnone.
  - intros [d [Hd Hname]].
    destruct (find_present
                (fun d => String.eqb (Domain.domain d) domain)
                (Domain_objects db)) as (y & Hy & Hin & Hfy).
    { exists d. split; [exact Hd | now apply String.eqb_eq]. }
    exists y. rewrite Hy. apply String.eqb_eq in Hfy. auto.
Qed.

Lemma custom_domain_classification_witness :
  unresolve_domain Sample.settings Sample.db "docs.example.org"
  = Raise (InvalidCustomDomainError "docs.example.org").
Proof.
  refine (proj1 (@custom_domain_classification
      Sample.settings Sample.db "docs.example.org" eq_refl eq_refl) _).
  intros d Hin. simpl in Hin.
  repeat (destruct Hin as [<-|Hin]; [discriminate|]).
  destruct Hin.
Defined.

(** X15.  What [unresolve_domain] returns tells how the domain was
    read.  The result carries the domain it was given; a
    [public_domain] result means the root domain is the public suffix and
    the project's slug is the first label; an [external_domain] result
    means the public suffix does not occur in the domain, the root domain
    is the external suffix and the first label is the project's slug,
    [--] and the version slug, which holds no further [--]; a
    [custom_domain] result means neither suffix occurs and the [Domain]
    object has the domain's name and owns the project; [http_header] is
    never returned. *)
Theorem classification_sound settings db domain subdomain root u :
  let public_domain := get_domain_from_host (PUBLIC_DOMAIN settings) in
  let external_domain :=
    get_domain_from_host (RTD_EXTERNAL_VERSION_DOMAIN settings) in
  let root_domain := match root with Some r => r | None => "" end in
  Str.split_once "." domain = (subdomain, root) ->
  unresolve_domain settings db domain = Return u ->
  UnresolvedDomain.source_domain u = domain
  /\ match UnresolvedDomain.source u with
     | DomainSourceType.public_domain =>
         root_domain = public_domain
         /\ In (UnresolvedDomain.project u) (Project_objects db)
         /\ Project.slug (UnresolvedDomain.project u) = subdomain
     | DomainSourceType.external_domain =>
         Str.contains public_domain domain = false
         /\ root_domain = external_domain
         /\ In (UnresolvedDomain.project u) (Project_objects db)
         /\ exists version_slug,
              UnresolvedDomain.external_version_slug u = Some version_slug
              /\ subdomain
                 = (Project.slug (UnresolvedDomain.project u)
                    ++ "--" ++ version_slug)%string
              /\ Str.contains "--" version_slug = false
     | DomainSourceType.custom_domain =>
         Str.contains public_domain domain = false
         /\ Str.contains external_domain domain = false
         /\ exists domain_object,
              UnresolvedDomain.domain u = Some domain_object
              /\ In domain_object (Domain_objects db)
              /\ Domain.domain domain_object = domain
              /\ UnresolvedDomain.project u = Domain.project domain_object
     | DomainSourceType.http_header => False
     end.
Proof.
  intros public_domain external_domain root_domain Hsplit.
  rewrite (unresolve_domain_eq settings db domain Hsplit). cbv zeta.
  fold public_domain. fold external_domain. fold root_domain.
  destruct (Str.contains public_domain domain) eqn:Hp.
  - destruct (String.eqb public_domain root_domain) eqn:Hr; [|discriminate].
    apply String.eqb_eq in Hr.
    destruct (resolve_project_slug_cases db subdomain domain)
      as [(_ & _ & H)|(project & Hin & Hs & H)]; rewrite H; cbn [bind];
      [discriminate|].
    intros E; inversion E; subst u. simpl. auto.
  - destruct (Str.contains external_domain domain) eqn:He.
    + destruct (String.eqb external_domain root_domain) eqn:Hr;
        [|discriminate].
      apply String.eqb_eq in Hr.
      destruct (Str.rsplit_once "--" subdomain) as [[ps vs]|] eqn:Hsp;
        [|discriminate].
      destruct (resolve_project_slug_cases db ps domain)
        as [(_ & _ & H)|(project & Hin & Hs & H)]; rewrite H; cbn [bind];
        [discriminate|].
      intros E; inversion E; subst u. simpl.
      split; [reflexivity|]. split; [reflexivity|]. split; [auto|].
      split; [exact Hin|]. exists vs. split; [reflexivity|].
      rewrite Hs. split.
      * now apply StrFacts.rsplit_once_found in Hsp.
      * exact (@SplitFacts.rsplit_once_tail_clean
                 "--" "-" "-" subdomain ps vs eq_refl Hsp).
    + destruct (find _ (Domain_objects db)) as [d|] eqn:Hd; [|discriminate].
      intros E; inversion E; subst u. simpl.
      apply find_some in Hd as [Hin Hname]. apply String.eqb_eq in Hname.
      split; [reflexivity|]. split; [reflexivity|]. split; [reflexivity|].
      exists d. auto.
Qed.

Lemma classification_sound_witness :
  let domain := "docs--v2--pr-42.readthedocs.build" in
  let docs := Project.mk 9 "docs--v2" "en" false "latest" in
  let db :=
    {| Project_objects := [Sample.pip; docs];
       Domain_objects := [];
       translations := fun _ => [];
       subprojects := fun _ => [];
       versions := fun _ _ => [];
       features := fun _ => [] |} in
  Str.contains "readthedocs.io" domain = false
  /\ "readthedocs.build" = "readthedocs.build"
  /\ In docs (Project_objects db)
  /\ exists version_slug,
       Some "pr-42" = Some version_slug
       /\ "docs--v2--pr-42" = ("docs--v2" ++ "--" ++ version_slug)%string
       /\ Str.contains "--" version_slug = false.
Proof.
  intros domain docs db.
  exact (proj2 (@classification_sound
    Sample.settings db domain "docs--v2--pr-42" (Some "readthedocs.build")
    {| UnresolvedDomain.source_domain := domain;
       UnresolvedDomain.source := DomainSourceType.external_domain;
       UnresolvedDomain.project := docs;
       UnresolvedDomain.domain := None;
       UnresolvedDomain.external_version_slug := Some "pr-42" |}
    eq_refl eq_refl)).
Defined.

(** X16.  What [unresolve_domain] raises tells why.  Every error carries
    the domain given.  [SuspiciousHostnameError]: a suffix occurs in the
    domain (the public one, or the external one and not the public one)
    and is not its root domain.  [InvalidSubdomainError]: the root domain
    is a suffix and no project has the slug read from the first label.
    [InvalidExternalDomainError]: the root domain is the external suffix,
    the public suffix does not occur, and the first label has no [--].
    [InvalidCustomDomainError]: neither suffix occurs and no [Domain]
    has the domain's name.  No other error is raised. *)
Theorem classification_errors settings db domain subdomain root e :
  let public_domain := get_domain_from_host (PUBLIC_DOMAIN settings) in
  let external_domain :=
    get_domain_from_host (RTD_EXTERNAL_VERSION_DOMAIN settings) in
  let root_domain := match root with Some r => r | None => "" end in
  Str.split_once "." domain = (subdomain, root) ->
  unresolve_domain settings db domain = Raise e ->
  match e with
  | SuspiciousHostnameError d =>
      d = domain
      /\ ((Str.contains public_domain domain = true
           /\ root_domain <> public_domain)
          \/ (Str.contains public_domain domain = false
              /\ Str.contains external_domain domain = true
              /\ root_domain <> external_domain))
  | InvalidSubdomainError d =>
      d = domain
      /\ ((root_domain = public_domain
           /\ forall p, In p (Project_objects db) ->
                        Project.slug p <> subdomain)
          \/ (Str.contains public_domain domain = false
              /\ root_domain = external_domain
              /\ exists project_slug version_slug,
                   Str.rsplit_once "--" subdomain
                   = Some (project_slug, version_slug)
                   /\ forall p, In p (Project_objects db) ->
                                Project.slug p <> project_slug))
  | InvalidExternalDomainError d =>
      d = domain
      /\ Str.contains public_domain domain = false
      /\ root_domain = external_domain
      /\ Str.contains "--" subdomain = false
  | InvalidCustomDomainError d =>
      d = domain
      /\ Str.contains public_domain domain = false
      /\ Str.contains external_domain domain = false
      /\ forall d', In d' (Domain_objects db) -> Domain.domain d' <> domain
  | _ => False
  end.
Proof.
  intros public_domain external_domain root_domain Hsplit.
  rewrite (unresolve_domain_eq settings db domain Hsplit). cbv zeta.
  fold public_domain. fold external_domain. fold root_domain.
  destruct (Str.contains public_domain domain) eqn:Hp.
  - destruct (String.eqb public_domain root_domain) eqn:Hr.
    + apply String.eqb_eq in Hr.
      destruct (resolve_project_slug_cases db subdomain domain)
        as [(_ & Hnone & H)|(project & Hin & Hs & H)]; rewrite H; cbn [bind];
        [|discriminate].
      intros E; inversion E; subst e. split; [reflexivity|]. left. auto.
    + apply String.eqb_neq in Hr.
      intros E; inversion E; subst e. split; [reflexivity|].
      left. split; [reflexivity | congruence].
  - destruct (Str.contains external_domain domain) eqn:He.
    + destruct (String.eqb external_domain root_domain) eqn:Hr.
      * apply String.eqb_eq in Hr.
        destruct (Str.rsplit_once "--" subdomain) as [[ps vs]|] eqn:Hsp.
        -- destruct (resolve_project_slug_cases db ps domain)
             as [(_ & Hnone & H)|(project & Hin & Hs & H)];
             rewrite H; cbn [bind]; [|discriminate].
           intros E; inversion E; subst e. split; [reflexivity|].
           right. split; [reflexivity|]. split; [auto|]. eauto.
        -- intros E; inversion E; subst e.
           split; [reflexivity|]. split; [reflexivity|]. split; [auto|].
           exact (@SplitFacts.rsplit_once_none_inv
                    "--" "-" "-" subdomain eq_refl Hsp).
      * apply String.eqb_neq in Hr.
        intros E; inversion E; subst e. split; [reflexivity|].
        right. split; [reflexivity|]. split; [reflexivity|]. congruence.
    + destruct (find _ (Domain_objects db)) as [d|] eqn:Hd; [discriminate|].
      intros E; inversion E; subst e.
      split; [reflexivity|]. split; [reflexivity|]. split; [reflexivity|].
      intros d' Hin. apply String.eqb_neq. exact (find_none _ _ Hd d' Hin).
Qed.

Lemma classification_errors_witness :
  let domain := "pip.readthedocs.build" in
  domain = domain
  /\ Str.contains "readthedocs.io" domain = false
  /\ "readthedocs.build" = "readthedocs.build"
  /\ Str.contains "--" "pip" = false.
Proof.
  exact (@classification_errors
    Sample.settings Sample.db "pip.readthedocs.build" "pip"
    (Some "readthedocs.build")
    (InvalidExternalDomainError "pip.readthedocs.build") eq_refl eq_refl).
Defined.

(** The domain given comes back in the result and in every error. *)
Lemma unresolve_domain_returns settings db domain u :
  unresolve_domain settings db domain = Return u ->
  UnresolvedDomain.source_domain u = domain
  /\ UnresolvedDomain.source u <> DomainSourceType.http_header
  /\ (UnresolvedDomain.source u = DomainSourceType.external_domain ->
      UnresolvedDomain.domain u = None)
  /\ (forall d, UnresolvedDomain.domain u = Some d ->
                Domain.domain d = domain
                /\ Domain.project d = UnresolvedDomain.project u
                /\ In d (Domain_objects db)).
Proof.
  destruct (Str.split_once "." domain) as [subdomain root] eqn:Hsplit.
  rewrite (unresolve_domain_eq settings db domain Hsplit). cbv zeta.
  destruct (Str.contains _ domain).
  - destruct (String.eqb _ _); [|discriminate].
    destruct (_resolve_project_slug db subdomain domain);
      cbn [bind]; try discriminate.
    intros E; inversion E; subst u. simpl.
    repeat split; try discriminate; auto.
  - destruct (Str.contains _ domain).
    + destruct (String.eqb _ _); [|discriminate].
      destruct (Str.rsplit_once "--" subdomain) as [[ps vs]|];
        [|discriminate].
      destruct (_resolve_project_slug db ps domain);
        cbn [bind]; try discriminate.
      intros E; inversion E; subst u. simpl.
      repeat split; try discriminate; auto.
    + destruct (find _ (Domain_objects db)) as [d|] eqn:Hd; [|discriminate].
      intros E; inversion E; subst u. simpl.
      apply find_some in Hd as [Hin Hname]. apply String.eqb_eq in Hname.
      split; [reflexivity|]. split; [discriminate|].
      split; [discriminate|].
      intros d' E'. inversion E'; subst d'. auto.
Qed.

Lemma unresolve_domain_raises settings db domain e :
  unresolve_domain settings db domain = Raise e ->
  e = SuspiciousHostnameError domain
  \/ e = InvalidSubdomainError domain
  \/ e = InvalidExternalDomainError domain
  \/ e = InvalidCustomDomainError domain.
Proof.
  destruct (Str.split_once "." domain) as [subdomain root] eqn:Hsplit.
  rewrite (unresolve_domain_eq settings db domain Hsplit). cbv zeta.
  unfold _resolve_project_slug.
  destruct (Str.contains _ domain).
  - destruct (String.eqb _ _).
    + destruct (find _ (Project_objects db)); cbn [bind];
        intros E; inversion E; auto.
    + intros E; inversion E; auto.
  - destruct (Str.contains _ domain).
    + destruct (String.eqb _ _).
      * destruct (Str.rsplit_once "--" subdomain) as [[ps vs]|].
        -- destruct (find _ (Project_objects db)); cbn [bind];
             intros E; inversion E; auto.
        -- intros E; inversion E; auto.
      * intros E; inversion E; auto.
    + destruct (find _ (Domain_objects db)); intros E; inversion E; auto.
Qed.

(** X17.  The two configured suffixes are normalised before use: for
    settings of ASCII characters, on which the model's [lower] is
    Python's, a port or capital letters in [PUBLIC_DOMAIN] or
    [RTD_EXTERNAL_VERSION_DOMAIN] change nothing in the classification of
    any domain. *)
Theorem settings_are_normalised settings db domain :
  Str.is_ascii (PUBLIC_DOMAIN settings) = true ->
  Str.is_ascii (RTD_EXTERNAL_VERSION_DOMAIN settings) = true ->
  unresolve_domain settings db domain
  = unresolve_domain
      {| PUBLIC_DOMAIN := get_domain_from_host (PUBLIC_DOMAIN settings);
         RTD_EXTERNAL_VERSION_DOMAIN :=
           get_domain_from_host (RTD_EXTERNAL_VERSION_DOMAIN settings) |}
      db domain.
Proof.
  intros Hpublic Hexternal.
  unfold unresolve_domain. cbn [PUBLIC_DOMAIN RTD_EXTERNAL_VERSION_DOMAIN].
  rewrite (NormalFacts.get_domain_from_host_idem _ Hpublic).
  rewrite (NormalFacts.get_domain_from_host_idem _ Hexternal).
  reflexivity.
Qed.

Lemma settings_are_normalised_witness :
  unresolve_domain
    {| PUBLIC_DOMAIN := "ReadTheDocs.io:443";
       RTD_EXTERNAL_VERSION_DOMAIN := "ReadTheDocs.Build:443" |}
    Sample.db "pip--pr-42.readthedocs.build"
  = Return
      {| UnresolvedDomain.source_domain := "pip--pr-42.readthedocs.build";
         UnresolvedDomain.source := DomainSourceType.external_domain;
         UnresolvedDomain.project := Sample.pip;
         UnresolvedDomain.domain := None;
         UnresolvedDomain.external_version_slug := Some "pr-42" |}.
Proof.
  rewrite (@settings_are_normalised
             {| PUBLIC_DOMAIN := "ReadTheDocs.io:443";
                RTD_EXTERNAL_VERSION_DOMAIN := "ReadTheDocs.Build:443" |}
             Sample.db "pip--pr-42.readthedocs.build" eq_refl eq_refl).
  vm_compute. reflexivity.
Defined.

(** X18.  [unresolve_domain_from_request] works on the normalised host:
    every result has the lower-cased host without port as
    [source_domain], its source is [http_header] exactly when the header
    is present and not empty, and every error is either
    [InvalidXRTDSlugHeaderError], with such a header, or one of the four
    domain errors carrying the normalised host, without one. *)
Theorem request_classification settings db request :
  let host := get_domain_from_host (get_host request) in
  let header := headers_get request "X-RTD-Slug" "" in
  (forall u,
      unresolve_domain_from_request settings db request = Return u ->
      UnresolvedDomain.source_domain u = host
      /\ (UnresolvedDomain.source u = DomainSourceType.http_header
          <-> header <> ""))
  /\ (forall e,
         unresolve_domain_from_request settings db request = Raise e ->
         (e = InvalidXRTDSlugHeaderError /\ header <> "")
         \/ (header = ""
             /\ (e = SuspiciousHostnameError host
                 \/ e = InvalidSubdomainError host
                 \/ e = InvalidExternalDomainError host
                 \/ e = InvalidCustomDomainError host))).
Proof.
  intros host header. unfold unresolve_domain_from_request.
  fold host. fold header. rewrite StrFacts.truthy_lower.
  destruct header as [|c header'] eqn:Hh; cbn [Str.truthy].
  - split.
    + intros u Hu. apply unresolve_domain_returns in Hu as (Hs & Hne & _).
      split; [exact Hs|]. split; [intros E; now elim Hne | congruence].
    + intros e He. right. split; [reflexivity|].
      now apply unresolve_domain_raises in He.
  - split.
    + intros u.
      destruct (find _ (Project_objects db)); [|discriminate].
      intros E; inversion E; subst u. simpl.
      split; [reflexivity|]. split; [discriminate | reflexivity].
    + intros e.
      destruct (find _ (Project_objects db)); [discriminate|].
      intros E; inversion E; subst e. left. split; [reflexivity|discriminate].
Qed.

Lemma request_classification_witness :
  let request :=
    {| get_host := "Pip.ReadTheDocs.io:8000"; headers := [("Accept", "*")] |} in
  "pip.readthedocs.io" = "pip.readthedocs.io"
  /\ (DomainSourceType.public_domain = DomainSourceType.http_header
      <-> "" <> "").
Proof.
  intros request.
  exact (proj1 (request_classification Sample.settings Sample.db request)
    {| UnresolvedDomain.source_domain := "pip.readthedocs.io";
       UnresolvedDomain.source := DomainSourceType.public_domain;
       UnresolvedDomain.project := Sample.pip;
       UnresolvedDomain.domain := None;
       UnresolvedDomain.external_version_slug := None |} eq_refl).
Defined.

(** ** The facade *)

Lemma resolve_returns opts db fuel parent path check_subprojects ext p v f :
  _unresolve_path_with_parent_project
    opts db fuel parent path check_subprojects ext = Return (p, v, f) ->
  In v (versions db p (if Str.truthy_opt ext then EXTERNAL else INTERNAL))
  /\ (Str.truthy_opt ext = true -> ext = Some (Version.slug v))
  /\ Str.startswith "/" f = true.
Proof.
  intros H. apply resolve_reduce in H as [H|[H|(_ & m & a & rel & H)]].
  - discriminate.
  - now apply resolve_alone_returns in H.
  - destruct H as (_ & _ & _ & _ & H).
    now apply resolve_alone_returns in H.
Qed.

Lemma unresolve_inv opts db fuel ud parsed append url :
  _unresolve opts db fuel ud parsed append = Return url ->
  exists f,
    _unresolve_path_with_parent_project
      opts db fuel (UnresolvedDomain.project ud) (path parsed) true
      (UnresolvedDomain.external_version_slug ud)
    = Return (UnresolvedURL.project url, UnresolvedURL.version url, f)
    /\ url
       = {| UnresolvedURL.parent_project := UnresolvedDomain.project ud;
            UnresolvedURL.project := UnresolvedURL.project url;
            UnresolvedURL.version := UnresolvedURL.version url;
            UnresolvedURL.filename :=
              if append && Str.endswith_char "/" f
              then (f ++ "index.html")%string else f;
            UnresolvedURL.parsed_url := parsed;
            UnresolvedURL.domain := UnresolvedDomain.domain ud;
            UnresolvedURL.external :=
              UnresolvedDomain.is_from_external_domain ud |}.
Proof.
  unfold _unresolve.
  destruct (_unresolve_path_with_parent_project _ _ _ _ _ _ _)
    as [[[p v] f]| |]; cbn [bind]; try discriminate.
  intros E; inversion E; subst url. exists f. split; reflexivity.
Qed.

(** X19.  The [UnresolvedURL] built by [_unresolve] has the domain's
    project as parent project, the parsed URL it was given, the domain's
    [Domain] object, and [external] set exactly for an external domain;
    its version is a version of its project in the manager in use; its
    file name starts with [/], is the resolver's file name unless that
    ends with [/] and the index file is asked for, and with the index
    file asked for it never ends with [/]. *)
Theorem facade_result opts db fuel ud parsed append url :
  _unresolve opts db fuel ud parsed append = Return url ->
  UnresolvedURL.parent_project url = UnresolvedDomain.project ud
  /\ UnresolvedURL.parsed_url url = parsed
  /\ UnresolvedURL.domain url = UnresolvedDomain.domain ud
  /\ (UnresolvedURL.external url = true
      <-> UnresolvedDomain.source ud = DomainSourceType.external_domain)
  /\ In (UnresolvedURL.version url)
        (versions db (UnresolvedURL.project url)
                  (if Str.truthy_opt (UnresolvedDomain.external_version_slug ud)
                   then EXTERNAL else INTERNAL))
  /\ Str.startswith "/" (UnresolvedURL.filename url) = true
  /\ (append = true ->
      Str.endswith_char "/" (UnresolvedURL.filename url) = false)
  /\ exists f,
       _unresolve_path_with_parent_project
         opts db fuel (UnresolvedDomain.project ud) (path parsed) true
         (UnresolvedDomain.external_version_slug ud)
       = Return (UnresolvedURL.project url, UnresolvedURL.version url, f)
       /\ (UnresolvedURL.filename url = f
           \/ (append = true
               /\ Str.endswith_char "/" f = true
               /\ UnresolvedURL.filename url = (f ++ "index.html")%string)).
Proof.
  intros H. apply unresolve_inv in H as (f & Hr & Hurl).
  pose proof (resolve_returns _ _ _ _ _ _ _ Hr) as (Hin & _ & Hslash).
  rewrite Hurl. cbn.
  split; [reflexivity|]. split; [reflexivity|]. split; [reflexivity|].
  split.
  { unfold UnresolvedDomain.is_from_external_domain.
    destruct (UnresolvedDomain.source ud); split; congruence. }
  split; [exact Hin|].
  destruct append; cbn [andb].
  - destruct (Str.endswith_char "/" f) eqn:He.
    + split; [now apply NormalFacts.startswith_slash_app|].
      split; [intros _; apply NormalFacts.endswith_char_app|].
      exists f. split; [exact Hr|]. right. auto.
    + split; [exact Hslash|]. split; [intros _; exact He|].
      exists f. split; [exact Hr|]. now left.
  - split; [exact Hslash|]. split; [discriminate|].
    exists f. split; [exact Hr|]. now left.
Qed.

Lemma facade_result_witness :
  let ud :=
    UnresolvedDomain.mk "pip--pr-42.readthedocs.build"
                        DomainSourceType.external_domain
                        Sample.pip None (Some "pr-42") in
  let parsed :=
    {| scheme := ""; netloc := ""; path := "/projects/sub/en/pr-42/";
       params := ""; query := ""; fragment := "" |} in
  let url :=
    {| UnresolvedURL.parent_project := Sample.pip;
       UnresolvedURL.project := Sample.sub;
       UnresolvedURL.version := Sample.pr42 31;
       UnresolvedURL.filename := "/index.html";
       UnresolvedURL.parsed_url := parsed;
       UnresolvedURL.domain := None;
       UnresolvedURL.external := true |} in
  _unresolve Sample.pattern_opts Sample.db 2 ud parsed true = Return url
  /\ Str.startswith "/" (UnresolvedURL.filename url) = true
  /\ Str.endswith_char "/" (UnresolvedURL.filename url) = false.
Proof.
  intros ud parsed url.
  assert (H : _unresolve Sample.pattern_opts Sample.db 2 ud parsed true
              = Return url) by (vm_compute; reflexivity).
  split; [exact H|].
  destruct (@facade_result Sample.pattern_opts Sample.db 2 ud parsed
                           true url H)
    as (_ & _ & _ & _ & _ & Hstart & Hend & _).
  split; [exact Hstart | exact (Hend eq_refl)].
Defined.

(** What an external-domain result says about the domain it came from. *)
Lemma unresolve_domain_external settings db domain ud :
  unresolve_domain settings db domain = Return ud ->
  UnresolvedDomain.source ud = DomainSourceType.external_domain ->
  exists version_slug,
    UnresolvedDomain.external_version_slug ud = Some version_slug
    /\ fst (Str.split_once "." domain)
       = (Project.slug (UnresolvedDomain.project ud)
          ++ "--" ++ version_slug)%string.
Proof.
  destruct (Str.split_once "." domain) as [subdomain root] eqn:Hsplit.
  rewrite (unresolve_domain_eq settings db domain Hsplit). cbv zeta.
  destruct (Str.contains _ domain).
  - destruct (String.eqb _ _); [|discriminate].
    destruct (_resolve_project_slug db subdomain domain);
      cbn [bind]; try discriminate.
    intros E; inversion E; subst ud. discriminate.
  - destruct (Str.contains _ domain).
    + destruct (String.eqb _ _); [|discriminate].
      destruct (Str.rsplit_once "--" subdomain) as [[ps vs]|] eqn:Hsp;
        [|discriminate].
      destruct (resolve_project_slug_cases db ps domain)
        as [(_ & _ & H)|(project & Hin & Hs & H)]; rewrite H; cbn [bind];
        [discriminate|].
      intros E; inversion E; subst ud. intros _. simpl.
      exists vs. split; [reflexivity|]. rewrite Hs.
      now apply StrFacts.rsplit_once_found in Hsp.
    + destruct (find _ (Domain_objects db)); [|discriminate].
      intros E; inversion E; subst ud. discriminate.
Qed.

(** X20.  [unresolve_url] classifies the normalised host of the parsed
    URL and resolves the parsed path against the project found: an error
    of the classification comes out as it is, whatever the path; a result
    keeps the parsed URL; a result with a [Domain] object comes from the
    custom domain of that name, whose project is the parent project; and
    an external result has no [Domain] object. *)
Theorem unresolve_url_composes
        opts settings db (urlparse : string -> ParseResult)
        fuel url append :
  let parsed := urlparse url in
  let host := get_domain_from_host (netloc parsed) in
  let result := unresolve_url opts settings db urlparse fuel url append in
  (forall e, unresolve_domain settings db host = Raise e ->
             result = Raise e)
  /\ (forall ud, unresolve_domain settings db host = Return ud ->
                 result = _unresolve opts db fuel ud parsed append)
  /\ (forall u,
         result = Return u ->
         UnresolvedURL.parsed_url u = parsed
         /\ (UnresolvedURL.external u = true -> UnresolvedURL.domain u = None)
         /\ (forall d, UnresolvedURL.domain u = Some d ->
                       Domain.domain d = host
                       /\ Domain.project d = UnresolvedURL.parent_project u
                       /\ In d (Domain_objects db))).
Proof.
  intros parsed host result. subst result. unfold unresolve_url.
  fold parsed. fold host.
  split; [intros e He; now rewrite He|].
  split; [intros ud Hud; now rewrite Hud|].
  intros u.
  destruct (unresolve_domain settings db host) as [ud| |] eqn:Hud;
    cbn [bind]; try discriminate.
  intros Hu. apply unresolve_inv in Hu as (f & _ & Hurl).
  apply unresolve_domain_returns in Hud as (_ & _ & Hext & Hdom).
  rewrite Hurl. cbn.
  split; [reflexivity|]. split.
  - unfold UnresolvedDomain.is_from_external_domain.
    destruct (UnresolvedDomain.source ud); try discriminate.
    intros _. now apply Hext.
  - exact Hdom.
Qed.

Lemma unresolve_url_composes_witness :
  let parsed :=
    {| scheme := "https"; netloc := "Docs.Pip.org:443";
       path := "/es/latest/"; params := ""; query := ""; fragment := "" |} in
  let urlparse := fun _ : string => parsed in
  let u :=
    {| UnresolvedURL.parent_project := Sample.pip;
       UnresolvedURL.project := Sample.pip_es;
       UnresolvedURL.version := Sample.latest 20;
       UnresolvedURL.filename := "/index.html";
       UnresolvedURL.parsed_url := parsed;
       UnresolvedURL.domain := Some Sample.docs_pip_org;
       UnresolvedURL.external := false |} in
  unresolve_url Sample.pattern_opts Sample.settings Sample.db urlparse 1
                "https://Docs.Pip.org:443/es/latest/" true = Return u
  /\ Domain.domain Sample.docs_pip_org = "docs.pip.org"
  /\ Domain.project Sample.docs_pip_org = Sample.pip
  /\ In Sample.docs_pip_org (Domain_objects Sample.db).
Proof.
  intros parsed urlparse u.
  assert (H : unresolve_url Sample.pattern_opts Sample.settings Sample.db
                            urlparse 1
                            "https://Docs.Pip.org:443/es/latest/" true
              = Return u) by (vm_compute; reflexivity).
  split; [exact H|].
  destruct (@unresolve_url_composes
    Sample.pattern_opts Sample.settings Sample.db urlparse 1
    "https://Docs.Pip.org:443/es/latest/" true) as (_ & _ & Hu).
  exact (proj2 (proj2 (Hu u H)) Sample.docs_pip_org eq_refl).
Defined.

(** X21.  On a pull-request domain the URL decides nothing about the
    version: when [unresolve_url] returns an external result, the first
    label of the host is the parent project's slug, [--] and a version
    slug, and, that slug not being empty, the version returned has this
    slug and belongs to the external versions of the project returned. *)
Theorem external_url_version
        opts settings db (urlparse : string -> ParseResult)
        fuel url append u :
  let host := get_domain_from_host (netloc (urlparse url)) in
  unresolve_url opts settings db urlparse fuel url append = Return u ->
  UnresolvedURL.external u = true ->
  exists version_slug,
    fst (Str.split_once "." host)
    = (Project.slug (UnresolvedURL.parent_project u)
       ++ "--" ++ version_slug)%string
    /\ (version_slug <> "" ->
        Version.slug (UnresolvedURL.version u) = version_slug
        /\ In (UnresolvedURL.version u)
              (versions db (UnresolvedURL.project u) EXTERNAL)).
Proof.
  intros host. unfold unresolve_url. fold host.
  destruct (unresolve_domain settings db host) as [ud| |] eqn:Hud;
    cbn [bind]; try discriminate.
  intros Hu Hext. apply unresolve_inv in Hu as (f & Hr & Hurl).
  rewrite Hurl in Hext |- *. cbn in Hext |- *.
  assert (Hsrc :
    UnresolvedDomain.source ud = DomainSourceType.external_domain).
  { unfold UnresolvedDomain.is_from_external_domain in Hext.
    destruct (UnresolvedDomain.source ud); congruence. }
  destruct (unresolve_domain_external _ _ _ Hud Hsrc) as (vs & Hvs & Hlabel).
  exists vs. split; [exact Hlabel|].
  intros Hne. rewrite Hvs in Hr.
  apply resolve_returns in Hr as (Hin & Hslug & _).
  assert (Ht : Str.truthy_opt (Some vs) = true)
    by (destruct vs; [congruence | reflexivity]).
  rewrite Ht in Hin. specialize (Hslug Ht). inversion Hslug as [Hs].
  split; [now rewrite <- Hs | exact Hin].
Qed.

Lemma external_url_version_witness :
  let parsed :=
    {| scheme := "https"; netloc := "pip--pr-42.readthedocs.build";
       path := "/projects/sub/en/pr-42/"; params := ""; query := "";
       fragment := "" |} in
  let urlparse := fun _ : string => parsed in
  let u :=
    {| UnresolvedURL.parent_project := Sample.pip;
       UnresolvedURL.project := Sample.sub;
       UnresolvedURL.version := Sample.pr42 31;
       UnresolvedURL.filename := "/index.html";
       UnresolvedURL.parsed_url := parsed;
       UnresolvedURL.domain := None;
       UnresolvedURL.external := true |} in
  unresolve_url Sample.pattern_opts Sample.settings Sample.db urlparse 2
                "https://pip--pr-42.readthedocs.build/projects/sub/en/pr-42/"
                true = Return u
  /\ exists version_slug,
       "pip--pr-42" = ("pip" ++ "--" ++ version_slug)%string
       /\ (version_slug <> "" ->
           Version.slug (Sample.pr42 31) = version_slug
           /\ In (Sample.pr42 31) (versions Sample.db Sample.sub EXTERNAL)).
Proof.
  intros parsed urlparse u.
  assert (H : unresolve_url
                Sample.pattern_opts Sample.settings Sample.db urlparse 2
                "https://pip--pr-42.readthedocs.build/projects/sub/en/pr-42/"
                true = Return u) by (vm_compute; reflexivity).
  split; [exact H|].
  exact (@external_url_version
    Sample.pattern_opts Sample.settings Sample.db urlparse 2
    "https://pip--pr-42.readthedocs.build/projects/sub/en/pr-42/" true
    u H eq_refl).
Defined.
